(** * Credential lifecycle of claude_code_internal

    A shallow embedding of the authentication server
    ([servers/auth.py]), of the gateway's authentication dependency
    ([servers/llm_gateway.py]), of the client token cache
    ([client/agent.py]) and of the constants of [config.py], together
    with the properties of the credential lifecycle that the
    specification states about them.

    Conventions.
    - Python dictionaries with string keys are [gmap string _]; the
      method [d.get(k)] is [get k d] and yields [VNone] on a missing key.
    - A Python exception is a value of [exn]; code that may raise returns
      a [result].  FastAPI answers an [HTTPException] with its status code
      and any other exception escaping an endpoint with status 500
      ([http_status]).
    - Module-level mutable state (the two caches), the clocks and the
      outbound HTTP traffic of the server are threaded through a state
      monad over [World]; the client threads [Client].
    - Cryptography is symbolic: a token records which key produced its
      signature, and a signature only verifies under the matching key. *)

From stdpp Require Import base option list strings gmap.
From Stdlib Require Import ZArith Lia.

#[local] Open Scope string_scope.
#[local] Open Scope Z_scope.

(** ** Python values and exceptions *)

(** JSON values as Python sees them after [json.loads].  Numbers are
    integers; floating-point claims are outside the model. *)
#[warnings="-register-all"] Inductive value :=
| VNone
| VBool (b : bool)
| VInt (z : Z)
| VStr (s : string)
| VList (l : list value)
| VDict (d : list (string * value)).

(** Python truthiness, as used by [not x] and [x or y]. *)
Definition truthy (v : value) : bool :=
  match v with
  | VNone => false
  | VBool b => b
  | VInt z => negb (z =? 0)
  | VStr s => negb (String.eqb s "")
  | VList l => match l with [] => false | _ => true end
  | VDict d => match d with [] => false | _ => true end
  end.

(** [x or y] *)
Definition py_or (x y : value) : value := if truthy x then x else y.

(** [v == s] for a string literal [s] *)
Definition eq_str (v : value) (s : string) : bool :=
  match v with
  | VStr s' => String.eqb s' s
  | _ => false
  end.

(** [Optional[str]] as a JSON value *)
Definition of_opt (o : option string) : value :=
  match o with
  | Some s => VStr s
  | None => VNone
  end.

(** [d.get(k)] *)
Definition get (k : string) (d : gmap string value) : value :=
  default VNone (d !! k).

Inductive exn :=
| HTTPException (status_code : Z) (detail : string)
| PyJWTError (msg : string)
| HTTPError (msg : string)        (* httpx transport or status error *)
| KeyError (key : string)
| JSONDecodeError
| RuntimeError (msg : string)
| TypeError (msg : string).

Inductive result (A : Type) :=
| Ok (a : A)
| Raise (e : exn).
Arguments Ok {A} a.
Arguments Raise {A} e.

(** Status of the HTTP response FastAPI produces for an endpoint outcome. *)
Definition http_status {A} (r : result A) : Z :=
  match r with
  | Ok _ => 200
  | Raise (HTTPException s _) => s
  | Raise _ => 500
  end.

Definition is_ok {A} (r : result A) : bool :=
  match r with Ok _ => true | Raise _ => false end.

(** Sequencing of code that may raise: [x ← r; k] and [r ;; k]. *)
#[export] Instance result_ret : MRet result := fun _ a => Ok a.
#[export] Instance result_bind : MBind result := fun _ _ f r =>
  match r with
  | Ok a => f a
  | Raise e => Raise e
  end.

(** ** config.py *)

Record Config := {
  INTERNAL_JWT_SECRET : string;
  INTERNAL_JWT_TTL_HOURS : Z;
  INTERNAL_REFRESH_TTL_DAYS : Z;
  ENTRA_TENANT_ID : string;
  ENTRA_CLIENT_ID : string;
  ENTRA_AUTHORITY : string;
  OPENID_CACHE_TTL_SECONDS : Z;
}.

Definition INTERNAL_JWT_ALG : string := "HS256".
Definition JWT_REFRESH_MARGIN_SECONDS : Z := 300.
Definition JWT_TTL_SECONDS : Z := 10800.

(** The configuration obtained when no environment variable is set. *)
Definition default_config : Config := {|
  INTERNAL_JWT_SECRET := "CHANGE_ME_INTERNAL_JWT_SECRET";
  INTERNAL_JWT_TTL_HOURS := 3;
  INTERNAL_REFRESH_TTL_DAYS := 30;
  ENTRA_TENANT_ID := "";
  ENTRA_CLIENT_ID := "";
  ENTRA_AUTHORITY := "https://login.microsoftonline.com/";
  OPENID_CACHE_TTL_SECONDS := 3600;
|}.

(** ** The PyJWT boundary

    Tokens are compact JWS strings.  A string that parses is a [Jwt]:
    its header, its claims and what its third segment is a signature
    of.  [Signed a k] says that the segment is the algorithm-[a]
    signature of the first two segments under the signing key [k];
    [Unsigned] that it is not a valid signature under any key.

    The library is modelled as far as the program calls it:
    [get_unverified_header], [decode] with a list of allowed
    algorithms and optional audience and issuer, and [encode] with a
    string key.  Signatures are perfect (one verifies only under the
    key that made it), timestamp claims are integers, and the claims
    of a token that parses form a JSON object. *)
Module PyJWT.

Definition rsa_id := positive.

(** Bytes used as an HMAC key: an ordinary secret, or the PEM text of
    an RSA public key (the key material of an algorithm-confusion
    attempt). *)
Inductive hmac_key :=
| RawSecret (s : string)
| PublicKeyPem (k : rsa_id).

Inductive signing_key :=
| Hmac (k : hmac_key)
| RsaPrivate (k : rsa_id).

Inductive signature :=
| Signed (alg : string) (k : signing_key)
| Unsigned.

Record header := {
  h_alg : option string;        (* "alg", when present and a string *)
  h_kid : option value;         (* "kid", when present *)
}.

Inductive token :=
| Malformed (s : string)
| Jwt (h : header) (claims : gmap string value) (sig : signature).

(** The [key] argument of [jwt.decode]. *)
Inductive verification_key :=
| KeyStr (s : string)
| RSAPublicKey (k : rsa_id).

(** [jwt.get_unverified_header]: parses the header and checks that a
    present [kid] is a string. *)
Definition get_unverified_header (t : token) : result header :=
  match t with
  | Malformed _ => Raise (PyJWTError "Not enough segments")
  | Jwt h _ _ =>
      match h_kid h with
      | None | Some (VStr _) => Ok h
      | Some _ => Raise (PyJWTError "Key ID header parameter must be a string")
      end
  end.

(** Signature check of one algorithm against the supplied key.  Only
    the two algorithms the program ever allows are registered. *)
Definition verify_signature (alg : string) (key : verification_key)
    (sig : signature) : result unit :=
  if String.eqb alg "HS256" then
    match key with
    | KeyStr s =>
        match sig with
        | Signed a (Hmac (RawSecret s')) =>
            if String.eqb a alg && String.eqb s' s then Ok tt
            else Raise (PyJWTError "Signature verification failed")
        | _ => Raise (PyJWTError "Signature verification failed")
        end
    | RSAPublicKey _ => Raise (TypeError "Expected a string value")
    end
  else if String.eqb alg "RS256" then
    match key with
    | RSAPublicKey k =>
        match sig with
        | Signed a (RsaPrivate k') =>
            if String.eqb a alg && Pos.eqb k' k then Ok tt
            else Raise (PyJWTError "Signature verification failed")
        | _ => Raise (PyJWTError "Signature verification failed")
        end
    | KeyStr _ => Raise (PyJWTError "Could not parse the provided public key.")
    end
  else Raise (PyJWTError "Algorithm not supported").

(** [int(v)] on a timestamp claim; only integers convert. *)
Definition timestamp (v : value) : result Z :=
  match v with
  | VInt z => Ok z
  | VBool b => Ok (if b then 1 else 0)
  | _ => Raise (PyJWTError "claim must be an integer")
  end.

Definition check (b : bool) (msg : string) : result unit :=
  if b then Ok tt else Raise (PyJWTError msg).

Definition validate_timestamps (claims : gmap string value) (now : Z)
    : result unit :=
  (match claims !! "iat" with
   | Some v => iat ← timestamp v; check (iat <=? now) "The token is not yet valid (iat)"
   | None => Ok tt
   end) ;;
  (match claims !! "nbf" with
   | Some v => nbf ← timestamp v; check (nbf <=? now) "The token is not yet valid (nbf)"
   | None => Ok tt
   end) ;;
  (match claims !! "exp" with
   | Some v => exp ← timestamp v; check (now <? exp) "Signature has expired"
   | None => Ok tt
   end).

Definition validate_iss (claims : gmap string value) (issuer : option string)
    : result unit :=
  match issuer with
  | None => Ok tt
  | Some i =>
      match claims !! "iss" with
      | None => Raise (PyJWTError "Token is missing the iss claim")
      | Some v => check (eq_str v i) "Invalid issuer"
      end
  end.

Definition is_str (v : value) : bool :=
  match v with VStr _ => true | _ => false end.

Definition validate_aud (claims : gmap string value) (audience : option string)
    : result unit :=
  let aud := get "aud" claims in
  match audience with
  | None => check (negb (truthy aud)) "Invalid audience"
  | Some a =>
      if negb (truthy aud) then Raise (PyJWTError "Token is missing the aud claim")
      else
        match aud with
        | VStr s => check (String.eqb s a) "Audience doesn't match"
        | VList l =>
            check (forallb is_str l) "Invalid claim format in token" ;;
            check (existsb (fun v => eq_str v a) l) "Audience doesn't match"
        | _ => Raise (PyJWTError "Invalid claim format in token")
        end
  end.

(** [jwt.decode(token, key, algorithms=..., audience=..., issuer=...)]
    evaluated when the wall clock reads [now]. *)
Definition decode (t : token) (key : verification_key)
    (algorithms : list string) (audience issuer : option string)
    (now : Z) : result (gmap string value) :=
  match t with
  | Malformed _ => Raise (PyJWTError "Not enough segments")
  | Jwt h claims sig =>
      match h_alg h with
      | None => Raise (PyJWTError "Algorithm not specified")
      | Some alg =>
          check (bool_decide (alg ∈ algorithms))
                "The specified alg value is not allowed" ;;
          verify_signature alg key sig ;;
          validate_timestamps claims now ;;
          validate_iss claims issuer ;;
          validate_aud claims audience ;;
          Ok claims
      end
  end.

(** [jwt.encode(payload, key, algorithm=alg)] with a string key. *)
Definition encode (payload : gmap string value) (key : string)
    (alg : string) : token :=
  Jwt {| h_alg := Some alg; h_kid := None |} payload
      (Signed alg (Hmac (RawSecret key))).

(** The claims a token carries, whether or not anyone verified it. *)
Definition claims_of (t : token) : gmap string value :=
  match t with
  | Malformed _ => ∅
  | Jwt _ c _ => c
  end.

End PyJWT.

(** ** The outside world of the authentication server *)

(** A JSON Web Key as [_validate_entra_token] reads it: its [kid] and
    the RSA public key [RSAAlgorithm.from_jwk] builds from it ([None]
    when [from_jwk] raises). *)
Record Jwk := {
  jwk_kid : option string;
  jwk_key : option PyJWT.rsa_id;
}.

(** A JSON object served by the identity provider, with the two members
    the server reads: ["jwks_uri"] of the discovery document and
    ["keys"] of the key set (absent is the empty list, as in
    [jwks.get("keys", [])]). *)
Record document := {
  jwks_uri : option string;
  keys : list Jwk;
}.

Inductive http_outcome :=
| TransportError
| Response (status : Z) (body : option document).   (* [None]: not JSON *)

Record http_reply := {
  elapsed : N;                    (* seconds the exchange took *)
  outcome : http_outcome;
}.

(** Process state of the auth server and what it can observe: the two
    module-level caches, both clocks, and the log of outbound GETs
    (latest first). *)
Record World := {
  _openid_config_cache : gmap string (document * Z);
  _jwks_cache : gmap string (document * Z);
  monotonic : Z;
  utcnow : Z;
  fetched : list string;
}.

Definition cold (mono utc : Z) : World := {|
  _openid_config_cache := ∅;
  _jwks_cache := ∅;
  monotonic := mono;
  utcnow := utc;
  fetched := [];
|}.

(** Computations of the server: they may raise, and they leave a world
    behind either way. *)
Definition Server (A : Type) : Type := World -> result A * World.

#[export] Instance server_ret : MRet Server := fun _ a w => (Ok a, w).
#[export] Instance server_bind : MBind Server := fun _ _ f m w =>
  match m w with
  | (Ok a, w') => f a w'
  | (Raise e, w') => (Raise e, w')
  end.

Definition raise {A} (e : exn) : Server A := fun w => (Raise e, w).
Definition ask : Server World := fun w => (Ok w, w).
Definition lift {A} (r : result A) : Server A := fun w => (r, w).

(** [try: body except jwt.PyJWTError as exc: raise HTTPException(...)] *)
Definition except_PyJWTError {A} (r : result A) (status : Z) (detail : string)
    : result A :=
  match r with
  | Raise (PyJWTError _) => Raise (HTTPException status detail)
  | _ => r
  end.

Definition store_openid_config (d : document) : Server unit := fun w =>
  (Ok tt, {| _openid_config_cache := <["config" := (d, monotonic w)]> (_openid_config_cache w);
             _jwks_cache := _jwks_cache w;
             monotonic := monotonic w; utcnow := utcnow w; fetched := fetched w |}).

Definition store_jwks (d : document) : Server unit := fun w =>
  (Ok tt, {| _openid_config_cache := _openid_config_cache w;
             _jwks_cache := <["jwks" := (d, monotonic w)]> (_jwks_cache w);
             monotonic := monotonic w; utcnow := utcnow w; fetched := fetched w |}).

(** *** Pydantic models *)

Record VerifyRequest := {
  id_token : PyJWT.token;
  device_id : option string;
}.

Record TokenResponse := {
  access_token : PyJWT.token;
  refresh_token : PyJWT.token;
  expires_in : Z;
}.

Record RefreshRequest := {
  req_refresh_token : PyJWT.token;
}.

Section AuthServer.

Variable cfg : Config.

(** What the network answers to a GET of a URL issued at a given
    monotonic time. *)
Variable internet : Z -> string -> http_reply.

(** [resp = httpx.get(url, timeout=5.0); resp.raise_for_status();
    resp.json()] *)
Definition httpx_get_json (url : string) : Server document := fun w =>
  let reply := internet (monotonic w) url in
  let w' := {| _openid_config_cache := _openid_config_cache w;
               _jwks_cache := _jwks_cache w;
               monotonic := monotonic w + Z.of_N (elapsed reply);
               utcnow := utcnow w + Z.of_N (elapsed reply);
               fetched := url :: fetched w |} in
  match outcome reply with
  | TransportError => (Raise (HTTPError "transport"), w')
  | Response status body =>
      if (200 <=? status) && (status <? 300) then
        match body with
        | Some d => (Ok d, w')
        | None => (Raise JSONDecodeError, w')
        end
      else (Raise (HTTPError "status"), w')
  end.

Definition _is_cache_valid (cache : gmap string (document * Z))
    (key : string) (now : Z) : bool :=
  match cache !! key with
  | None => false
  | Some (_, ts) => now - ts <? OPENID_CACHE_TTL_SECONDS cfg
  end.

Definition _get_openid_config : Server document :=
  if bool_decide (ENTRA_TENANT_ID cfg ∈ [""; "YOUR_TENANT_ID"])
     || bool_decide (ENTRA_CLIENT_ID cfg ∈ [""; "YOUR_APP_REGISTRATION_CLIENT_ID"])
  then raise (HTTPException 500
                "Auth server is not configured (ENTRA_TENANT_ID/ENTRA_CLIENT_ID)")
  else if bool_decide (INTERNAL_JWT_SECRET cfg ∈ [""; "CHANGE_ME_INTERNAL_JWT_SECRET"])
  then raise (HTTPException 500
                "Auth server is not configured (INTERNAL_JWT_SECRET)")
  else
    w ← ask;
    if _is_cache_valid (_openid_config_cache w) "config" (monotonic w) then
      match _openid_config_cache w !! "config" with
      | Some (d, _) => mret d
      | None => raise (KeyError "config")
      end
    else
      let url := ENTRA_AUTHORITY cfg ++ "/v2.0/.well-known/openid-configuration" in
      data ← httpx_get_json url;
      store_openid_config data;;
      mret data.

Definition _get_jwks : Server document :=
  w ← ask;
  if _is_cache_valid (_jwks_cache w) "jwks" (monotonic w) then
    match _jwks_cache w !! "jwks" with
    | Some (d, _) => mret d
    | None => raise (KeyError "jwks")
    end
  else
    config ← _get_openid_config;
    match jwks_uri config with
    | None => raise (KeyError "jwks_uri")
    | Some uri =>
        data ← httpx_get_json uri;
        store_jwks data;;
        mret data
    end.

(** [jwk.get("kid") == kid] for the header's [kid]. *)
Definition kid_matches (jwk : Jwk) (kid : value) : bool :=
  match jwk_kid jwk, kid with
  | Some s, VStr s' => String.eqb s s'
  | _, _ => false
  end.

(** The loop of [_validate_entra_token]: the first key whose [kid]
    equals the header's is converted and the loop ends; a conversion
    that raises escapes the function. *)
Fixpoint find_key (ks : list Jwk) (kid : value)
    : result (option PyJWT.verification_key) :=
  match ks with
  | [] => Ok None
  | jwk :: rest =>
      if kid_matches jwk kid then
        match jwk_key jwk with
        | Some k => Ok (Some (PyJWT.RSAPublicKey k))
        | None => Raise (PyJWTError "Not an RSA key")
        end
      else find_key rest kid
  end.

Definition issuer_expected : string :=
  "https://login.microsoftonline.com/" ++ ENTRA_TENANT_ID cfg ++ "/v2.0".

Definition _validate_entra_token (id_token : PyJWT.token)
    : Server (gmap string value) :=
  jwks ← _get_jwks;
  unverified_header ← lift (except_PyJWTError
      (PyJWT.get_unverified_header id_token) 401 "Invalid token header");
  let kid := default VNone (PyJWT.h_kid unverified_header) in
  if negb (truthy kid) then
    raise (HTTPException 401 "Missing kid in token header")
  else
    key ← lift (find_key (keys jwks) kid);
    match key with
    | None => raise (HTTPException 401 "Signing key not found for token")
    | Some key =>
        w ← ask;
        lift (except_PyJWTError
          (PyJWT.decode id_token key ["RS256"]
             (Some (ENTRA_CLIENT_ID cfg)) (Some issuer_expected) (utcnow w))
          401 "Invalid Entra token")
    end.

(** *** Internal JWT issuance *)

Definition access_payload (subject : value) (device_id : option string)
    (now : Z) : gmap string value :=
  <["sub" := subject]>
  (<["device_id" := of_opt device_id]>
  (<["type" := VStr "access"]>
  (<["exp" := VInt (now + INTERNAL_JWT_TTL_HOURS cfg * 3600)]> ∅))).

Definition refresh_payload (subject : value) (now : Z)
    : gmap string value :=
  <["sub" := subject]>
  (<["type" := VStr "refresh"]>
  (<["exp" := VInt (now + INTERNAL_REFRESH_TTL_DAYS cfg * 86400)]> ∅)).

Definition _issue_internal_tokens (subject : value)
    (device_id : option string) : Server TokenResponse :=
  w ← ask;
  let now := utcnow w in
  let access_token :=
    PyJWT.encode (access_payload subject device_id now)
                 (INTERNAL_JWT_SECRET cfg) INTERNAL_JWT_ALG in
  let refresh_token :=
    PyJWT.encode (refresh_payload subject now)
                 (INTERNAL_JWT_SECRET cfg) INTERNAL_JWT_ALG in
  mret {| access_token := access_token;
          refresh_token := refresh_token;
          expires_in := INTERNAL_JWT_TTL_HOURS cfg * 3600 |}.

(** *** Endpoints *)

(** [GET /health] *)
Definition health : Server string := mret "ok".

(** [POST /auth/verify] *)
Definition verify (req : VerifyRequest) : Server TokenResponse :=
  claims ← _validate_entra_token (id_token req);
  let subject := py_or (get "oid" claims) (get "sub" claims) in
  if negb (truthy subject) then
    raise (HTTPException 401 "Token has no subject")
  else _issue_internal_tokens subject (device_id req).

(** [POST /auth/refresh] *)
Definition refresh (req : RefreshRequest) : Server TokenResponse :=
  w ← ask;
  payload ← lift (except_PyJWTError
    (PyJWT.decode (req_refresh_token req) (PyJWT.KeyStr (INTERNAL_JWT_SECRET cfg))
       [INTERNAL_JWT_ALG] None None (utcnow w))
    401 "Invalid refresh token");
  if negb (eq_str (get "type" payload) "refresh") then
    raise (HTTPException 400 "Token is not a refresh token")
  else
    let subject := get "sub" payload in
    if negb (truthy subject) then
      raise (HTTPException 400 "Refresh token has no subject")
    else _issue_internal_tokens subject None.

(** *** Names for the proofs *)

(** The decoding step of [_validate_entra_token]. *)
Definition decode_entra (t : PyJWT.token) (key : PyJWT.verification_key)
    (now : Z) : result (gmap string value) :=
  PyJWT.decode t key ["RS256"] (Some (ENTRA_CLIENT_ID cfg))
               (Some issuer_expected) now.

(** The pair [_issue_internal_tokens] builds when the wall clock reads
    [now]. *)
Definition issued (subject : value) (device_id : option string) (now : Z)
    : TokenResponse :=
  {| access_token :=
       PyJWT.encode (access_payload subject device_id now)
                    (INTERNAL_JWT_SECRET cfg) INTERNAL_JWT_ALG;
     refresh_token :=
       PyJWT.encode (refresh_payload subject now)
                    (INTERNAL_JWT_SECRET cfg) INTERNAL_JWT_ALG;
     expires_in := INTERNAL_JWT_TTL_HOURS cfg * 3600 |}.

(** The decoding step of [refresh]. *)
Definition decode_refresh (t : PyJWT.token) (now : Z)
    : result (gmap string value) :=
  PyJWT.decode t (PyJWT.KeyStr (INTERNAL_JWT_SECRET cfg))
               [INTERNAL_JWT_ALG] None None now.

End AuthServer.

(** The subject of an external token in the words of the specification:
    the [oid] claim when present and non-empty, otherwise the [sub]
    claim. *)
Definition external_subject (claims : gmap string value) : value :=
  match claims !! "oid" with
  | Some oid => if truthy oid then oid else get "sub" claims
  | None => get "sub" claims
  end.

(** The header's declared algorithm, for a string that parses. *)
Definition declared_alg (t : PyJWT.token) : option string :=
  match t with
  | PyJWT.Malformed _ => None
  | PyJWT.Jwt h _ _ => PyJWT.h_alg h
  end.

(** The signing secret still has an inert default. *)
Definition secret_is_default (cfg : Config) : Prop :=
  INTERNAL_JWT_SECRET cfg ∈ [""; "CHANGE_ME_INTERNAL_JWT_SECRET"].

(** ** servers/llm_gateway.py: the authentication dependency *)

(** The value of an [Authorization] header: ["Bearer "] followed by a
    token string, or any other text. *)
Inductive authorization_value :=
| Bearer (t : PyJWT.token)
| Plain (s : string).

(** Truthiness of a token string: only the empty string is falsy. *)
Definition nonempty (t : PyJWT.token) : bool :=
  match t with
  | PyJWT.Malformed s => negb (String.eqb s "")
  | PyJWT.Jwt _ _ _ => true
  end.

Section Gateway.

Variable cfg : Config.

Definition _extract_token (authorization : option authorization_value)
    (x_api_key : option PyJWT.token) : result PyJWT.token :=
  let from_api_key :=
    match x_api_key with
    | Some k => if nonempty k then Ok k
                else Raise (HTTPException 401 "Missing auth (Bearer or X-Api-Key)")
    | None => Raise (HTTPException 401 "Missing auth (Bearer or X-Api-Key)")
    end in
  match authorization with
  | Some (Bearer t) => Ok t
  | Some (Plain s) =>
      if String.prefix "Bearer " s
      then Ok (PyJWT.Malformed (String.substring 7 (String.length s - 7) s))
      else from_api_key
  | None => from_api_key
  end.

(** [get_current_user], evaluated when the wall clock reads [now]. *)
Definition get_current_user (authorization : option authorization_value)
    (x_api_key : option PyJWT.token) (now : Z) : result (gmap string value) :=
  if bool_decide (INTERNAL_JWT_SECRET cfg ∈ [""; "CHANGE_ME_INTERNAL_JWT_SECRET"])
  then Raise (HTTPException 500 "Gateway is not configured (INTERNAL_JWT_SECRET)")
  else
    token ← _extract_token authorization x_api_key;
    payload ← except_PyJWTError
      (PyJWT.decode token (PyJWT.KeyStr (INTERNAL_JWT_SECRET cfg))
         [INTERNAL_JWT_ALG] None None now)
      401 "Invalid internal token";
    if negb (eq_str (get "type" payload) "access") then
      Raise (HTTPException 401 "Token is not an access token")
    else Ok payload.

End Gateway.

(** ** client/agent.py: the token cache *)

Record TokenData := {
  td_access_token : PyJWT.token;
  td_refresh_token : PyJWT.token;
  expires_at : Z;
}.

(** [TokenData.is_expiring_soon], with [int(time.time())] read as [now]. *)
Definition is_expiring_soon (self : TokenData) (now : Z)
    (margin_seconds : Z) : bool :=
  expires_at self - now <? margin_seconds.

(** [~/.claude/token.json]: absent, present but not a token document
    ([json.load] or [from_json] raises), or a stored pair. *)
Inductive token_file :=
| NoFile
| Corrupt
| Stored (t : TokenData).

(** JSON body of a request to the auth server. *)
Inductive request_body :=
| VerifyBody (id_token : option PyJWT.token) (device_id : option string)
| RefreshBody (refresh_token : PyJWT.token).

(** JSON body of its answer, as far as the client reads it. *)
Record response_body := {
  body_access_token : option PyJWT.token;
  body_refresh_token : option PyJWT.token;
  body_expires_in : option Z;
}.

Inductive post_outcome :=
| PostTransportError
| PostResponse (status : Z) (body : option response_body).

(** What the client did to the world, latest first. *)
Inductive event :=
| GetDeviceId
| AzureCli
| MsalDeviceCode
| Post (url : string) (body : request_body)
| SaveToken (t : TokenData).

Record Client := {
  TOKEN_STORE_FILE : token_file;
  time : Z;                       (* int(time.time()) *)
  trace : list event;
}.

Definition Agent (A : Type) : Type := Client -> result A * Client.

#[export] Instance agent_ret : MRet Agent := fun _ a c => (Ok a, c).
#[export] Instance agent_bind : MBind Agent := fun _ _ f m c =>
  match m c with
  | (Ok a, c') => f a c'
  | (Raise e, c') => (Raise e, c')
  end.

Definition agent_lift {A} (r : result A) : Agent A := fun c => (r, c).

(** An interaction with the environment: it is recorded, takes time,
    and yields a result or raises. *)
Definition interact {A} (ev : event) (answer : N * result A) : Agent A :=
  fun c =>
    (answer.2, {| TOKEN_STORE_FILE := TOKEN_STORE_FILE c;
                  time := time c + Z.of_N answer.1;
                  trace := ev :: trace c |}).

Definition now_ : Agent Z := fun c => (Ok (time c), c).

Definition is_network (ev : event) : bool :=
  match ev with Post _ _ => true | _ => false end.

Definition is_identity_flow (ev : event) : bool :=
  match ev with AzureCli | MsalDeviceCode => true | _ => false end.

Section Agent.

Variable AUTH_SERVER_URL : string.

(** The environment of one run of the agent: how long each
    interaction takes and what it yields.  [device] is the outcome of
    the platform's device-id lookup, [az_cli] of
    [az account get-access-token], [msal_device_code] of the MSAL
    device-code flow, and [auth_server] the answer to a POST sent at a
    given time. *)
Variable device : N * result (option string).
Variable az_cli : N * result (option PyJWT.token).
Variable msal_device_code : N * result (option PyJWT.token).
Variable auth_server : Z -> string -> request_body -> N * post_outcome.

Definition save_token (token : TokenData) : Agent unit := fun c =>
  (Ok tt, {| TOKEN_STORE_FILE := Stored token;
             time := time c;
             trace := SaveToken token :: trace c |}).

Definition load_token : Agent (option TokenData) := fun c =>
  match TOKEN_STORE_FILE c with
  | NoFile => (Ok None, c)
  | Corrupt => (Raise JSONDecodeError, c)
  | Stored t => (Ok (Some t), c)
  end.

Definition get_device_id : Agent (option string) :=
  interact GetDeviceId device.

Definition get_entra_token_via_azure_cli : Agent (option PyJWT.token) :=
  interact AzureCli az_cli.

Definition get_entra_id_token_via_msal_device_code
    : Agent (option PyJWT.token) :=
  interact MsalDeviceCode msal_device_code.

(** [resp = httpx.post(url, json=payload, timeout=30.0);
    resp.raise_for_status(); data = resp.json()] *)
Definition httpx_post_json (url : string) (payload : request_body)
    : Agent response_body := fun c =>
  let answer := auth_server (time c) url payload in
  interact (Post url payload)
    (answer.1,
     match answer.2 with
     | PostTransportError => Raise (HTTPError "transport")
     | PostResponse status body =>
         if (200 <=? status) && (status <? 300) then
           match body with
           | Some d => Ok d
           | None => Raise JSONDecodeError
           end
         else Raise (HTTPError "status")
     end) c.

(** The part shared by the two exchanges: the expiry is computed from
    the client's clock, then the two tokens are read. *)
Definition token_of_response (data : response_body) (now : Z)
    : result TokenData :=
  let expires_at := now + default JWT_TTL_SECONDS (body_expires_in data) in
  match body_access_token data, body_refresh_token data with
  | Some a, Some r =>
      Ok {| td_access_token := a; td_refresh_token := r;
            expires_at := expires_at |}
  | None, _ => Raise (KeyError "access_token")
  | _, None => Raise (KeyError "refresh_token")
  end.

Definition exchange_entra_for_internal_token
    (id_token : option PyJWT.token) (device_id : option string)
    : Agent TokenData :=
  data ← httpx_post_json (AUTH_SERVER_URL ++ "/auth/verify")
                          (VerifyBody id_token device_id);
  now ← now_;
  agent_lift (token_of_response data now).

Definition refresh_internal_token (token : TokenData) : Agent TokenData :=
  data ← httpx_post_json (AUTH_SERVER_URL ++ "/auth/refresh")
                          (RefreshBody (td_refresh_token token));
  now ← now_;
  new_token ← agent_lift (token_of_response data now);
  save_token new_token;;
  mret new_token.

(** [a or b] on optional token strings *)
Definition falsy (o : option PyJWT.token) : bool :=
  match o with
  | None => true
  | Some t => negb (nonempty t)
  end.

Definition ensure_token : Agent TokenData :=
  token ← load_token;
  match token with
  | None =>
      device_id ← get_device_id;
      az ← get_entra_token_via_azure_cli;
      entra_token ← (if falsy az then get_entra_id_token_via_msal_device_code
                     else mret az);
      token ← exchange_entra_for_internal_token entra_token device_id;
      save_token token;;
      mret token
  | Some token =>
      now ← now_;
      if is_expiring_soon token now JWT_REFRESH_MARGIN_SECONDS then
        refresh_internal_token token
      else mret token
  end.

End Agent.

(** The requests the agent sent, latest first. *)
Definition network_calls (c : Client) : list event :=
  filter (fun ev => is_network ev = true) (trace c).

(** The identity-flow steps the agent ran, latest first. *)
Definition identity_steps (c : Client) : list event :=
  filter (fun ev => is_identity_flow ev = true) (trace c).

(** A request that [raise_for_status] or the transport turns into an
    httpx error. *)
Definition request_fails (o : post_outcome) : bool :=
  match o with
  | PostTransportError => true
  | PostResponse status _ => negb ((200 <=? status) && (status <? 300))
  end.

(** ** A deployment used in the examples *)

Module Scenario.

Definition cfg : Config := {|
  INTERNAL_JWT_SECRET := "s3cret-signing-key";
  INTERNAL_JWT_TTL_HOURS := 3;
  INTERNAL_REFRESH_TTL_DAYS := 30;
  ENTRA_TENANT_ID := "contoso";
  ENTRA_CLIENT_ID := "api-client";
  ENTRA_AUTHORITY := "https://login.microsoftonline.com/contoso";
  OPENID_CACHE_TTL_SECONDS := 3600;
|}.

Definition discovery_url : string :=
  "https://login.microsoftonline.com/contoso/v2.0/.well-known/openid-configuration".
Definition jwks_url : string :=
  "https://login.microsoftonline.com/contoso/discovery/v2.0/keys".

(** The identity provider publishes one RSA key, [k1], and answers
    at once. *)
Definition internet (t : Z) (url : string) : http_reply :=
  if String.eqb url discovery_url then
    {| elapsed := 0%N;
       outcome := Response 200 (Some {| jwks_uri := Some jwks_url; keys := [] |}) |}
  else if String.eqb url jwks_url then
    {| elapsed := 0%N;
       outcome := Response 200
         (Some {| jwks_uri := None;
                  keys := [ {| jwk_kid := Some "k1"; jwk_key := Some 1%positive |} ] |}) |}
  else {| elapsed := 0%N; outcome := Response 404 None |}.

Definition entra_claims : gmap string value :=
  <["iss" := VStr "https://login.microsoftonline.com/contoso/v2.0"]>
  (<["aud" := VStr "api-client"]>
  (<["oid" := VStr "user-42"]>
  (<["sub" := VStr "pairwise-7"]>
  (<["exp" := VInt 9000000]> ∅)))).

Definition entra_header (alg : string) : PyJWT.header :=
  {| PyJWT.h_alg := Some alg; PyJWT.h_kid := Some (VStr "k1") |}.

(** A token of the identity provider, signed with the private half
    of [k1]. *)
Definition entra_token : PyJWT.token :=
  PyJWT.Jwt (entra_header "RS256") entra_claims
            (PyJWT.Signed "RS256" (PyJWT.RsaPrivate 1%positive)).

(** The same claims under an HS256 header, with an HMAC keyed by the
    published public key [k1]. *)
Definition confused_token : PyJWT.token :=
  PyJWT.Jwt (entra_header "HS256") entra_claims
            (PyJWT.Signed "HS256" (PyJWT.Hmac (PyJWT.PublicKeyPem 1%positive))).

(** The server just started, at wall-clock second 1000. *)
Definition w0 : World := cold 0 1000.

(** The world after the two fetches of a cold start. *)
Definition w2 : World :=
  (_get_jwks cfg internet w0).2.

(** The world [w2], looked at again when the monotonic clock reads
    [t], with an empty log. *)
Definition revisit (t : Z) : World :=
  {| _openid_config_cache := _openid_config_cache w2;
     _jwks_cache := _jwks_cache w2;
     monotonic := t; utcnow := 1000 + t; fetched := [] |}.

(** The pair issued to alice's device [dev-1] at second 1000. *)
Definition pair : TokenResponse :=
  issued cfg (VStr "alice") (Some "dev-1") 1000.

(** A refresh token signed with the placeholder secret. *)
Definition placeholder_refresh_token : PyJWT.token :=
  PyJWT.encode (<["sub" := VStr "alice"]>
                (<["type" := VStr "refresh"]>
                (<["exp" := VInt 5000]> ∅)))
               "CHANGE_ME_INTERNAL_JWT_SECRET" "HS256".

(** *** The client's side *)

Definition AUTH_SERVER_URL : string := "https://auth.contoso.example".

Definition answer (r : result TokenResponse) : post_outcome :=
  match r with
  | Ok resp =>
      PostResponse 200
        (Some {| body_access_token := Some (access_token resp);
                 body_refresh_token := Some (refresh_token resp);
                 body_expires_in := Some (expires_in resp) |})
  | Raise _ => PostResponse (http_status r) None
  end.

(** The auth server of this deployment as the client reaches it: the
    endpoints above, run at the client's time, answering at once. *)
Definition auth_server (t : Z) (url : string) (body : request_body)
    : N * post_outcome :=
  (0%N,
   if String.eqb url (AUTH_SERVER_URL ++ "/auth/verify") then
     match body with
     | VerifyBody (Some tok) dev =>
         answer (verify cfg internet {| id_token := tok; device_id := dev |}
                        (cold t t)).1
     | _ => PostResponse 422 None
     end
   else if String.eqb url (AUTH_SERVER_URL ++ "/auth/refresh") then
     match body with
     | RefreshBody tok =>
         answer (refresh cfg {| req_refresh_token := tok |} (cold t t)).1
     | _ => PostResponse 422 None
     end
   else PostResponse 404 None).

(** The agent on a machine with a device id and a working [az]. *)
Definition agent : Agent TokenData :=
  ensure_token AUTH_SERVER_URL
    (0%N, Ok (Some "dev-1")) (0%N, Ok (Some entra_token))
    (0%N, Raise (RuntimeError "Device code flow init failed"))
    auth_server.

Definition fresh_install (t : Z) : Client :=
  {| TOKEN_STORE_FILE := NoFile; time := t; trace := [] |}.

(** The pair the agent holds after authenticating at second 0. *)
Definition first_pair : TokenData :=
  {| td_access_token := access_token (issued cfg (VStr "user-42") (Some "dev-1") 0);
     td_refresh_token := refresh_token (issued cfg (VStr "user-42") (Some "dev-1") 0);
     expires_at := 10800 |}.

(** The agent's state when it looks at that pair again at second [t]. *)
Definition later (t : Z) : Client :=
  {| TOKEN_STORE_FILE := Stored first_pair; time := t; trace := [] |}.

End Scenario.

(** ** servers/llm_gateway.py: the endpoints *)

Record ChatMessage := {
  role : string;
  content : string;
}.

Record ChatChoice := {
  index : Z;
  message : ChatMessage;
}.

Record ChatResponse := {
  choices : list ChatChoice;
}.

(** ["\n"] *)
Definition newline : string :=
  String (Ascii.Ascii false true false true false false false false) "".

(** [d.get(k)] on a JSON object given by its members. *)
Fixpoint dict_get (k : string) (d : list (string * value)) : option value :=
  match d with
  | [] => None
  | (k', v) :: rest => if String.eqb k' k then Some v else dict_get k rest
  end.

(** The entry of [messages_payload] made from a message. *)
Definition message_payload (m : ChatMessage) : value :=
  VDict [("role", VStr (role m));
         ("content", VList [VDict [("type", VStr "text");
                                   ("text", VStr (content m))]])].

(** The first loop of [chat], from the values [system_prompt] and
    [messages_payload] have when a message is reached. *)
Fixpoint chat_messages (messages : list ChatMessage) (system_prompt : string)
    (messages_payload : list value) : string * list value :=
  match messages with
  | [] => (system_prompt, messages_payload)
  | m :: rest =>
      if String.eqb (role m) "system"
      then chat_messages rest (system_prompt ++ content m ++ newline)
                         messages_payload
      else chat_messages rest system_prompt
                         (messages_payload ++ [message_payload m])%list
  end.

(** The [content_list] that [chat] finds in a Bedrock answer. *)
Definition content_list (payload : value) : option (list value) :=
  match payload with
  | VDict d =>
      match dict_get "content" d with
      | Some (VList l) => Some l
      | _ =>
          match dict_get "output" d with
          | Some (VDict output) =>
              match dict_get "message" output with
              | Some (VDict msg) =>
                  match dict_get "content" msg with
                  | Some (VList l) => Some l
                  | _ => None
                  end
              | _ => None
              end
          | _ => None
          end
      end
  | _ => None
  end.

(** The second loop of [chat]: [text += item.get("text", "")] for
    every object of type [text]; adding a non-string raises. *)
Fixpoint collect_text (items : list value) (text : string) : result string :=
  match items with
  | [] => Ok text
  | VDict d :: rest =>
      if eq_str (default VNone (dict_get "type" d)) "text" then
        match dict_get "text" d with
        | None => collect_text rest (text ++ "")
        | Some (VStr s) => collect_text rest (text ++ s)
        | Some _ => Raise (TypeError "can only concatenate str to str")
        end
      else collect_text rest text
  | _ :: rest => collect_text rest text
  end.

Definition unparsed : string :=
  "Bedrock response received but could not be parsed (unexpected format).".

Section GatewayEndpoints.

Variable cfg : Config.
Variable BEDROCK_MODEL_ID : string.
Variable ANTHROPIC_VERSION : string.

(** [bedrock.invoke_model] followed by [json.loads] of the body, and
    the same call returning the raw body. *)
Variable invoke_model : string -> gmap string value -> result value.
Variable invoke_model_raw : string -> string -> result string.

(** The request body [chat] sends. *)
Definition chat_body (messages : list ChatMessage) : gmap string value :=
  let '(system_prompt, messages_payload) := chat_messages messages "" [] in
  let body : gmap string value :=
    <["anthropic_version" := VStr ANTHROPIC_VERSION]>
    (<["max_tokens" := VInt 4096]>
    (<["messages" := VList messages_payload]> ∅)) in
  if negb (String.eqb system_prompt "")
  then <["system" := VStr system_prompt]> body
  else body.

(** The text [chat] returns for a Bedrock answer. *)
Definition chat_text (payload : value) : result string :=
  text ← match content_list payload with
         | Some l => collect_text l ""
         | None => Ok ""
         end;
  Ok (if String.eqb text "" then unparsed else text).

(** [POST /v1/chat/completions]: the outcome and the Bedrock
    invocations made, as (model, body). *)
Definition chat (messages : list ChatMessage)
    (authorization : option authorization_value)
    (x_api_key : option PyJWT.token) (now : Z)
    : result ChatResponse * list (string * gmap string value) :=
  match get_current_user cfg authorization x_api_key now with
  | Raise e => (Raise e, [])
  | Ok user =>
      let body := chat_body messages in
      (payload ← invoke_model BEDROCK_MODEL_ID body;
       text ← chat_text payload;
       Ok {| choices := [ {| index := 0;
                             message := {| role := "assistant";
                                           content := text |} |} ] |},
       [(BEDROCK_MODEL_ID, body)])
  end.

(** [POST /invoke], for the raw request body and the [modelId] query
    parameter: the outcome and the Bedrock invocations made. *)
Definition bedrock_invoke (raw : string) (model_id_param : option string)
    (authorization : option authorization_value)
    (x_api_key : option PyJWT.token) (now : Z)
    : result string * list (string * string) :=
  match get_current_user cfg authorization x_api_key now with
  | Raise e => (Raise e, [])
  | Ok user =>
      let model_id :=
        match model_id_param with
        | Some m => if String.eqb m "" then BEDROCK_MODEL_ID else m
        | None => BEDROCK_MODEL_ID
        end in
      if String.eqb model_id "" then
        (Raise (HTTPException 400 "Missing modelId"), [])
      else (invoke_model_raw model_id raw, [(model_id, raw)])
  end.

(** [POST /invoke-with-response-stream] *)
Definition bedrock_invoke_stream
    (authorization : option authorization_value)
    (x_api_key : option PyJWT.token) (now : Z)
    : result string * list (string * string) :=
  match get_current_user cfg authorization x_api_key now with
  | Raise e => (Raise e, [])
  | Ok user => (Raise (HTTPException 501 "Streaming not implemented"), [])
  end.

End GatewayEndpoints.

(** ** client/agent.py: the refresh loop *)

(** The interval [refresh_loop_cli] sleeps for. *)
Definition sleep_for (token : TokenData) (now : Z) : Z :=
  Z.max 60 (expires_at token - now - JWT_REFRESH_MARGIN_SECONDS).

Section RefreshLoop.

Variable AUTH_SERVER_URL : string.
Variable device : N * result (option string).
Variable az_cli : N * result (option PyJWT.token).
Variable msal_device_code : N * result (option PyJWT.token).
Variable auth_server : Z -> string -> request_body -> N * post_outcome.

(** By how many seconds of the clock a sleep that starts at a given
    time returns later than asked. *)
Variable oversleep : Z -> N.

(** [time.sleep(n)] *)
Definition time_sleep (n : Z) : Agent unit := fun c =>
  (Ok tt, {| TOKEN_STORE_FILE := TOKEN_STORE_FILE c;
             time := time c + n + Z.of_N (oversleep (time c));
             trace := trace c |}).

(** One turn of the [while True] of [refresh_loop_cli]. *)
Definition refresh_loop_turn : Agent unit :=
  token ← ensure_token AUTH_SERVER_URL device az_cli msal_device_code
                        auth_server;
  now ← now_;
  time_sleep (sleep_for token now).

(** [refresh_loop_cli], observed for a number of turns: the loop
    itself only ends by an exception. *)
Fixpoint refresh_loop_cli (turns : nat) : Agent unit :=
  match turns with
  | O => mret tt
  | S n => refresh_loop_turn;; refresh_loop_cli n
  end.

End RefreshLoop.

(** ** Vocabulary of the further properties *)

(** A content block of type [text], as Bedrock returns it. *)
Definition text_item (s : string) : value :=
  VDict [("type", VStr "text"); ("text", VStr s)].

Definition is_system (m : ChatMessage) : bool := String.eqb (role m) "system".

(** The system prompt of a conversation: the contents of its system
    messages, in order, each followed by a newline. *)
Definition system_prompt_of (messages : list ChatMessage) : string :=
  fold_right (fun m acc => content m ++ newline ++ acc) ""
             (List.filter is_system messages).

(** Its other messages, in order. *)
Definition dialogue_of (messages : list ChatMessage) : list ChatMessage :=
  List.filter (fun m => negb (is_system m)) messages.


(** Some required setting still has an inert default: the condition
    under which [_get_openid_config] refuses to run. *)
Definition unconfigured (cfg : Config) : Prop :=
  ENTRA_TENANT_ID cfg ∈ [""; "YOUR_TENANT_ID"]
  \/ ENTRA_CLIENT_ID cfg ∈ [""; "YOUR_APP_REGISTRATION_CLIENT_ID"]
  \/ INTERNAL_JWT_SECRET cfg ∈ [""; "CHANGE_ME_INTERNAL_JWT_SECRET"].

(** A GET that [httpx_get_json] turns into a document. *)
Definition delivers (o : http_outcome) (d : document) : Prop :=
  exists status, o = Response status (Some d)
                 /\ 200 <= status < 300.

(** The audience claim names the client: it is that string, or a list
    of strings containing it. *)
Definition names_audience (aud : value) (client : string) : Prop :=
  aud = VStr client
  \/ exists l, aud = VList l /\ VStr client ∈ l.

(** ** Further cases of the same deployment *)

Module Cases.

Import Scenario.

(** The key set the identity provider publishes. *)
Definition key_set : document :=
  {| jwks_uri := None;
     keys := [ {| jwk_kid := Some "k1"; jwk_key := Some 1%positive |} ] |}.

(** A token naming a key the provider does not publish. *)
Definition unknown_kid_header : PyJWT.header :=
  {| PyJWT.h_alg := Some "RS256"; PyJWT.h_kid := Some (VStr "k2") |}.

Definition unknown_kid_token : PyJWT.token :=
  PyJWT.Jwt unknown_kid_header entra_claims
            (PyJWT.Signed "RS256" (PyJWT.RsaPrivate 2%positive)).

(** A token without a [kid]. *)
Definition no_kid_header : PyJWT.header :=
  {| PyJWT.h_alg := Some "RS256"; PyJWT.h_kid := None |}.

(** An access token minted with a secret that is not the server's. *)
Definition foreign_header : PyJWT.header :=
  {| PyJWT.h_alg := Some "HS256"; PyJWT.h_kid := None |}.

Definition foreign_signature : PyJWT.signature :=
  PyJWT.Signed "HS256" (PyJWT.Hmac (PyJWT.RawSecret "another-secret")).

Definition foreign_claims : gmap string value :=
  access_payload cfg (VStr "mallory") None 1000.

(** A conversation with two system messages around a user turn. *)
Definition conversation : list ChatMessage :=
  [ {| role := "system"; content := "Be brief." |};
    {| role := "user"; content := "Hello" |};
    {| role := "system"; content := "" |};
    {| role := "assistant"; content := "Hi" |} ].

(** Bedrock answering with two text blocks. *)
Definition bedrock_answer : list (string * value) :=
  [("id", VStr "msg_1");
   ("content", VList (map text_item ["Hello"; ", world"]))].

Definition invoke_model (model : string) (body : gmap string value)
    : result value :=
  Ok (VDict bedrock_answer).

Definition invoke_model_raw (model : string) (raw : string) : result string :=
  Ok raw.

(** A machine without Azure CLI login on which the device-code flow
    cannot start. *)
Definition stranded : Agent TokenData :=
  ensure_token AUTH_SERVER_URL
    (0%N, Ok None) (0%N, Ok None)
    (0%N, Raise (RuntimeError "Device code flow init failed"))
    auth_server.

(** Sleeps that end on time. *)
Definition punctual (t : Z) : N := 0%N.

(** The refresh loop of the scenario's agent. *)
Definition loop (turns : nat) : Agent unit :=
  refresh_loop_cli AUTH_SERVER_URL
    (0%N, Ok (Some "dev-1")) (0%N, Ok (Some entra_token))
    (0%N, Raise (RuntimeError "Device code flow init failed"))
    auth_server punctual turns.

(** The gateway of the deployment answering a chat request. *)
Definition chat_run (authorization : option authorization_value)
    : result ChatResponse * list (string * gmap string value) :=
  chat cfg "anthropic.claude" "bedrock-2023-05-31" invoke_model
       conversation authorization None 2000.

Definition chat_reply : ChatResponse :=
  {| choices := [ {| index := 0;
                     message := {| role := "assistant";
                                   content := "Hello, world" |} |} ] |}.

End Cases.

(** * Properties *)

(** ** Internal issuance and the refresh endpoint *)

Section AuthServerFacts.

Variable cfg : Config.
Variable internet : Z -> string -> http_reply.


Lemma refresh_eq req w :
  refresh cfg req w =
  match except_PyJWTError (decode_refresh cfg (req_refresh_token req) (utcnow w))
                          401 "Invalid refresh token" with
  | Raise e => (Raise e, w)
  | Ok payload =>
      if negb (eq_str (get "type" payload) "refresh")
      then (Raise (HTTPException 400 "Token is not a refresh token"), w)
      else if negb (truthy (get "sub" payload))
      then (Raise (HTTPException 400 "Refresh token has no subject"), w)
      else (Ok (issued cfg (get "sub" payload) None (utcnow w)), w)
  end.
Proof.
  unfold refresh, decode_refresh, mbind, server_bind, ask, lift. simpl.
  destruct (except_PyJWTError _ _ _) as [payload|e]; [|reflexivity].
  destruct (negb (eq_str _ _)); [reflexivity|].
  destruct (negb (truthy _)); reflexivity.
Qed.

(** [except_PyJWTError] only rewrites errors. *)
Lemma except_PyJWTError_Ok {A} (r : result A) status detail a :
  except_PyJWTError r status detail = Ok a <-> r = Ok a.
Proof. destruct r as [a'|[]]; simpl; split; congruence. Qed.

(** A token that [jwt.decode] accepts carries the claims it returns. *)
Lemma decode_Ok_claims t key algs aud iss now payload :
  PyJWT.decode t key algs aud iss now = Ok payload ->
  PyJWT.claims_of t = payload.
Proof.
  destruct t as [s|h claims sig]; simpl; [discriminate|].
  destruct (PyJWT.h_alg h) as [alg|]; [|discriminate].
  unfold mbind, result_bind.
  repeat match goal with
         | |- context [match ?r with Ok _ => _ | Raise _ => _ end] =>
             destruct r; [|discriminate]
         end.
  congruence.
Qed.

(** A token that [jwt.decode] accepts declares one of the allowed
    algorithms. *)
Lemma decode_Ok_alg t key algs aud iss now payload :
  PyJWT.decode t key algs aud iss now = Ok payload ->
  exists h claims sig alg,
    t = PyJWT.Jwt h claims sig /\ PyJWT.h_alg h = Some alg /\ alg ∈ algs.
Proof.
  destruct t as [s|h claims sig]; simpl; [discriminate|].
  destruct (PyJWT.h_alg h) as [alg|] eqn:Halg; [|discriminate].
  unfold mbind, result_bind, PyJWT.check.
  case_bool_decide as Hin; [|discriminate].
  intros _. by exists h, claims, sig, alg.
Qed.

End AuthServerFacts.

Section InternalTokens.

Variable cfg : Config.
Variable internet : Z -> string -> http_reply.


(** C10.  Every successful refresh returns an access token whose
    [device_id] claim is null: the endpoint issues without a device
    id, whatever device the refreshed pair was bound to. *)
Theorem refresh_drops_device_binding req w resp w' :
  refresh cfg req w = (Ok resp, w') ->
  PyJWT.claims_of (access_token resp) !! "device_id" = Some VNone.
Proof.
  rewrite refresh_eq.
  destruct (except_PyJWTError _ _ _) as [payload|e]; [|discriminate].
  destruct (negb (eq_str _ _)); [discriminate|].
  destruct (negb (truthy _)); [discriminate|].
  intros [= <- _]. simpl. unfold access_payload. by simplify_map_eq.
Qed.


(** C6.  A token that verifies under the internal secret never passes
    the check for the other type: with type [refresh] the gateway's
    [get_current_user] rejects it however it is presented, and with
    type [access] the refresh endpoint rejects it. *)
Theorem token_type_separation rt at_ now pr pa authorization x_api_key w :
  decode_refresh cfg rt now = Ok pr ->
  get "type" pr = VStr "refresh" ->
  decode_refresh cfg at_ now = Ok pa ->
  get "type" pa = VStr "access" ->
  _extract_token authorization x_api_key = Ok rt ->
  utcnow w = now ->
  is_ok (get_current_user cfg authorization x_api_key now) = false
  /\ is_ok (refresh cfg {| req_refresh_token := at_ |} w).1 = false.
Proof.
  intros Hr Tr Ha Ta Hx Hnow. split.
  - unfold get_current_user. case_bool_decide; [done|].
    rewrite Hx. simpl. unfold decode_refresh in Hr. rewrite Hr. simpl.
    by rewrite Tr.
  - rewrite refresh_eq. simpl. rewrite Hnow, Ha. simpl. by rewrite Ta.
Qed.

End InternalTokens.

(** ** External verification *)

Section ExternalTokens.

Variable cfg : Config.
Variable internet : Z -> string -> http_reply.

Lemma validate_entra_token_eq id_token w :
  _validate_entra_token cfg internet id_token w =
  match _get_jwks cfg internet w with
  | (Raise e, w1) => (Raise e, w1)
  | (Ok jwks, w1) =>
      match except_PyJWTError (PyJWT.get_unverified_header id_token)
                              401 "Invalid token header" with
      | Raise e => (Raise e, w1)
      | Ok unverified_header =>
          let kid := default VNone (PyJWT.h_kid unverified_header) in
          if negb (truthy kid)
          then (Raise (HTTPException 401 "Missing kid in token header"), w1)
          else
            match find_key (keys jwks) kid with
            | Raise e => (Raise e, w1)
            | Ok None =>
                (Raise (HTTPException 401 "Signing key not found for token"), w1)
            | Ok (Some key) =>
                (except_PyJWTError (decode_entra cfg id_token key (utcnow w1))
                                   401 "Invalid Entra token", w1)
            end
      end
  end.
Proof.
  unfold _validate_entra_token, decode_entra, mbind, server_bind, lift, raise, ask.
  destruct (_get_jwks cfg internet w) as [[jwks|e] w1]; [|reflexivity].
  destruct (except_PyJWTError _ _ _) as [hd|e]; [|reflexivity].
  destruct (negb (truthy _)); [reflexivity|].
  destruct (find_key _ _) as [[key|]|e]; reflexivity.
Qed.

Lemma verify_eq req w :
  verify cfg internet req w =
  match _validate_entra_token cfg internet (id_token req) w with
  | (Raise e, w1) => (Raise e, w1)
  | (Ok claims, w1) =>
      let subject := py_or (get "oid" claims) (get "sub" claims) in
      if negb (truthy subject)
      then (Raise (HTTPException 401 "Token has no subject"), w1)
      else (Ok (issued cfg subject (device_id req) (utcnow w1)), w1)
  end.
Proof.
  unfold verify, mbind, server_bind.
  destruct (_validate_entra_token _ _ _ _) as [[claims|e] w1]; [|reflexivity].
  simpl. destruct (negb (truthy _)); reflexivity.
Qed.


(** For string claims, truthy is non-empty. *)
Lemma truthy_VStr s : truthy (VStr s) = true <-> s <> "".
Proof.
  simpl. rewrite negb_true_iff. split.
  - intros H ->. discriminate.
  - intros H. apply String.eqb_neq. exact H.
Qed.


(** With only RS256 allowed, [jwt.decode] refuses every other
    declared algorithm before looking at key or signature. *)
Lemma decode_entra_other_alg t key now :
  declared_alg t <> Some "RS256" ->
  exists msg, decode_entra cfg t key now = Raise (PyJWTError msg).
Proof.
  intros Halg. unfold decode_entra.
  destruct t as [s|h claims sig]; simpl in *; [by eexists|].
  destruct (PyJWT.h_alg h) as [alg|]; [|by eexists].
  unfold PyJWT.check. case_bool_decide as Hin.
  - apply list_elem_of_singleton in Hin. congruence.
  - by eexists.
Qed.

(** C5.  An external token whose header declares anything but RS256
    is never accepted by [_validate_entra_token], whatever the key
    set holds and whatever key produced its signature, and [verify]
    issues nothing for it. *)
Theorem other_algorithm_rejected id_token dev w :
  declared_alg id_token <> Some "RS256" ->
  is_ok (_validate_entra_token cfg internet id_token w).1 = false
  /\ is_ok (verify cfg internet
              {| id_token := id_token; device_id := dev |} w).1 = false.
Proof.
  intros Halg.
  assert (Hv : is_ok (_validate_entra_token cfg internet id_token w).1 = false).
  { rewrite validate_entra_token_eq.
    destruct (_get_jwks cfg internet w) as [[jwks|e] w1]; [|reflexivity].
    destruct (except_PyJWTError _ _ _) as [hd|e]; [|reflexivity].
    simpl. destruct (negb (truthy _)); [reflexivity|].
    destruct (find_key _ _) as [[key|]|e]; try reflexivity.
    destruct (decode_entra_other_alg id_token key (utcnow w1) Halg) as [msg ->].
    reflexivity. }
  split; [exact Hv|].
  rewrite verify_eq. simpl.
  destruct (_validate_entra_token _ _ _ _) as [[claims|e] w1]; [discriminate|].
  reflexivity.
Qed.

(** Under RS256 a signature verifies only if it is the RS256 signature
    made with the private half of the key it is checked against. *)
Lemma verify_signature_rs256 key sig :
  PyJWT.verify_signature "RS256" key sig = Ok tt ->
  exists k, key = PyJWT.RSAPublicKey k
            /\ sig = PyJWT.Signed "RS256" (PyJWT.RsaPrivate k).
Proof.
  unfold PyJWT.verify_signature. simpl.
  destruct key as [s|k]; [discriminate|].
  destruct sig as [a [hk|k']|]; try discriminate.
  destruct (String.eqb_spec a "RS256") as [->|]; [|discriminate].
  destruct (Pos.eqb_spec k' k) as [->|]; [|discriminate].
  intros _. by exists k.
Qed.

(** Whatever its header says, a token [_validate_entra_token] accepts
    declares RS256 and bears an RSA signature; no HMAC, whatever its
    key, is ever accepted. *)
Lemma accepted_token_is_rsa_signed id_token w claims w1 :
  _validate_entra_token cfg internet id_token w = (Ok claims, w1) ->
  exists h k,
    id_token = PyJWT.Jwt h claims (PyJWT.Signed "RS256" (PyJWT.RsaPrivate k))
    /\ PyJWT.h_alg h = Some "RS256".
Proof.
  rewrite validate_entra_token_eq.
  destruct (_get_jwks cfg internet w) as [[jwks|e] w']; [|discriminate].
  destruct (except_PyJWTError _ _ _) as [hd|e]; [|discriminate].
  simpl. destruct (negb (truthy _)); [discriminate|].
  destruct (find_key _ _) as [[key|]|e]; try discriminate.
  intros [= Hdec _]. apply except_PyJWTError_Ok in Hdec.
  unfold decode_entra in Hdec.
  destruct id_token as [s|h c sig]; simpl in Hdec; [discriminate|].
  destruct (PyJWT.h_alg h) as [alg|] eqn:Halg; [|discriminate].
  unfold PyJWT.check in Hdec. case_bool_decide as Hin; [|discriminate].
  apply list_elem_of_singleton in Hin. subst alg.
  unfold mbind, result_bind in Hdec.
  destruct (PyJWT.verify_signature "RS256" key sig) as [[]|e] eqn:Hsig;
    [|discriminate].
  destruct (verify_signature_rs256 _ _ Hsig) as (k & -> & ->).
  simpl in Hdec.
  repeat match type of Hdec with
         | match ?r with Ok _ => _ | Raise _ => _ end = _ =>
             destruct r; [|discriminate]
         end.
  injection Hdec as <-. by exists h, k.
Qed.

End ExternalTokens.

(** ** The refusal to run unconfigured *)

Section Unconfigured.

Variable cfg : Config.
Variable internet : Z -> string -> http_reply.
Hypothesis Hdefault : secret_is_default cfg.

Lemma get_openid_config_unconfigured w :
  exists detail,
    _get_openid_config cfg internet w = (Raise (HTTPException 500 detail), w).
Proof.
  unfold _get_openid_config.
  destruct (_ || _); [by eexists|].
  rewrite bool_decide_eq_true_2 by exact Hdefault. by eexists.
Qed.

(** [POST /auth/verify] answers 500 and leaves the caches as they
    are, as long as no key set is cached; from a cold start none ever
    is. *)
Lemma verify_unconfigured req w :
  _jwks_cache w !! "jwks" = None ->
  exists detail,
    verify cfg internet req w = (Raise (HTTPException 500 detail), w).
Proof.
  intros Hcold. rewrite verify_eq, validate_entra_token_eq.
  unfold _get_jwks, mbind, server_bind, ask, _is_cache_valid.
  rewrite Hcold.
  destruct (get_openid_config_unconfigured w) as [detail ->].
  by exists detail.
Qed.

End Unconfigured.

(** C1 on the code.  With nothing configured, [POST /auth/refresh]
    accepts a refresh token signed with the placeholder secret and
    answers 200 with a new pair signed with the placeholder secret. *)
Theorem refresh_runs_on_placeholder_secret :
  secret_is_default default_config
  /\ refresh default_config
       {| req_refresh_token := Scenario.placeholder_refresh_token |} Scenario.w0
     = (Ok (issued default_config (VStr "alice") None 1000), Scenario.w0)
  /\ PyJWT.decode (access_token (issued default_config (VStr "alice") None 1000))
       (PyJWT.KeyStr "CHANGE_ME_INTERNAL_JWT_SECRET") ["HS256"] None None 1000
     = Ok (access_payload default_config (VStr "alice") None 1000).
Proof.
  split; [|split].
  - unfold secret_is_default. simpl. set_solver.
  - vm_compute. reflexivity.
  - vm_compute. reflexivity.
Qed.

(** ** The scenario, run *)

Section ScenarioRuns.

Import Scenario.



Lemma refresh_drops_device_binding_witness :
  PyJWT.claims_of (access_token pair) !! "device_id" = Some (VStr "dev-1")
  /\ refresh cfg {| req_refresh_token := refresh_token pair |} (cold 0 2000)
     = (Ok (issued cfg (VStr "alice") None 2000), cold 0 2000)
  /\ PyJWT.claims_of (access_token (issued cfg (VStr "alice") None 2000))
       !! "device_id" = Some VNone.
Proof.
  split; [vm_compute; reflexivity|].
  assert (H : refresh cfg {| req_refresh_token := refresh_token pair |}
                      (cold 0 2000)
              = (Ok (issued cfg (VStr "alice") None 2000), cold 0 2000))
    by (vm_compute; reflexivity).
  split; [exact H|].
  exact (refresh_drops_device_binding cfg _ _ _ _ H).
Defined.

Lemma token_type_separation_witness :
  is_ok (get_current_user cfg (Some (Bearer (refresh_token pair))) None 2000)
    = false
  /\ is_ok (refresh cfg {| req_refresh_token := access_token pair |}
                    (cold 0 2000)).1 = false.
Proof.
  apply (token_type_separation cfg (refresh_token pair) (access_token pair)
           2000 (refresh_payload cfg (VStr "alice") 1000)
           (access_payload cfg (VStr "alice") (Some "dev-1") 1000)).
  - vm_compute. reflexivity.
  - vm_compute. reflexivity.
  - vm_compute. reflexivity.
  - vm_compute. reflexivity.
  - reflexivity.
  - reflexivity.
Defined.


(** The subject of the scenario's external token is its [oid]. *)
Example scenario_subject :
  external_subject entra_claims = VStr "user-42"
  /\ is_ok (verify cfg internet
              {| id_token := entra_token; device_id := Some "dev-1" |} w0).1
     = true.
Proof. split; vm_compute; reflexivity. Qed.

Lemma other_algorithm_rejected_witness :
  declared_alg confused_token <> Some "RS256"
  /\ is_ok (_validate_entra_token cfg internet confused_token w0).1 = false
  /\ is_ok (verify cfg internet
              {| id_token := confused_token; device_id := None |} w0).1 = false.
Proof.
  assert (H : declared_alg confused_token <> Some "RS256")
    by (vm_compute; discriminate).
  split; [exact H|].
  exact (other_algorithm_rejected cfg internet confused_token None w0 H).
Defined.

(** The key set does hold the key the confused token names, and the
    answer is the 401 of the decoding step. *)
Example confused_token_401 :
  (jwks ← (_get_jwks cfg internet w0).1; find_key (keys jwks) (VStr "k1"))
    = Ok (Some (PyJWT.RSAPublicKey 1%positive))
  /\ (_validate_entra_token cfg internet confused_token w0).1
     = Raise (HTTPException 401 "Invalid Entra token").
Proof. split; vm_compute; reflexivity. Qed.

End ScenarioRuns.

(** ** The client token cache *)

Section TokenCache.

Variable AUTH_SERVER_URL : string.
Variable device : N * result (option string).
Variable az_cli : N * result (option PyJWT.token).
Variable msal_device_code : N * result (option PyJWT.token).
Variable auth_server : Z -> string -> request_body -> N * post_outcome.

#[local] Abbreviation ensure_token' :=
  (ensure_token AUTH_SERVER_URL device az_cli msal_device_code auth_server).
#[local] Abbreviation refresh_internal_token' :=
  (refresh_internal_token AUTH_SERVER_URL auth_server).
#[local] Abbreviation refresh_url := (AUTH_SERVER_URL ++ "/auth/refresh").

(** The request [refresh_internal_token] sends for a pair. *)
#[local] Abbreviation refresh_request token :=
  (Post refresh_url (RefreshBody (td_refresh_token token))).

Lemma ensure_token_stored c token :
  TOKEN_STORE_FILE c = Stored token ->
  ensure_token' c =
  if is_expiring_soon token (time c) JWT_REFRESH_MARGIN_SECONDS
  then refresh_internal_token' token c
  else (Ok token, c).
Proof.
  intros Hfile. unfold ensure_token, mbind, agent_bind, load_token, now_.
  rewrite Hfile. simpl.
  destruct (is_expiring_soon _ _ _); reflexivity.
Qed.

(** The cache serves the stored pair exactly up to the second
    [expires_at - margin], that second included. *)
Lemma is_expiring_soon_spec token now margin :
  is_expiring_soon token now margin = negb (now <=? expires_at token - margin).
Proof.
  unfold is_expiring_soon.
  destruct (Z.ltb_spec (expires_at token - now) margin),
           (Z.leb_spec now (expires_at token - margin)); simpl; lia.
Qed.

(** Whatever the server answers, refreshing sends exactly one request,
    the one to [/auth/refresh]. *)
Lemma refresh_internal_token_calls token c :
  network_calls (refresh_internal_token' token c).2
  = refresh_request token :: network_calls c.
Proof.
  unfold refresh_internal_token, mbind, agent_bind, httpx_post_json,
    interact, now_, agent_lift, save_token, network_calls.
  simpl.
  destruct (auth_server _ _ _) as [dt [|status body]]; simpl;
    [reflexivity|].
  destruct ((200 <=? status) && (status <? 300)); [|reflexivity].
  destruct body as [data|]; [|reflexivity]. simpl.
  destruct (token_of_response _ _) as [new_token|e]; reflexivity.
Qed.

(** A refresh whose request fails raises the httpx error, having
    only sent that request. *)
Lemma refresh_internal_token_fails token c :
  request_fails (auth_server (time c) refresh_url
                   (RefreshBody (td_refresh_token token))).2 = true ->
  exists msg,
    refresh_internal_token' token c =
    (Raise (HTTPError msg),
     {| TOKEN_STORE_FILE := TOKEN_STORE_FILE c;
        time := time c + Z.of_N (auth_server (time c) refresh_url
                   (RefreshBody (td_refresh_token token))).1;
        trace := refresh_request token :: trace c |}).
Proof.
  unfold refresh_internal_token, mbind, agent_bind, httpx_post_json,
    interact, request_fails.
  simpl.
  destruct (auth_server _ _ _) as [dt [|status body]]; simpl;
    [by eexists|].
  intros ->%negb_true_iff. by eexists.
Qed.

(** C4 as the code has it.  A pair issued at second 0 with the access
    lifetime 10800 and read with the margin 300 is served as it is,
    with no I/O at all, at every second up to and including 10500;
    at every later second the read sends one request, the refresh. *)
Theorem ensure_token_fresh_until_10500 c token :
  TOKEN_STORE_FILE c = Stored token ->
  expires_at token = 0 + JWT_TTL_SECONDS ->
  if time c <=? 10500
  then ensure_token' c = (Ok token, c)
  else network_calls (ensure_token' c).2
       = refresh_request token :: network_calls c.
Proof.
  intros Hfile Hexp.
  rewrite (ensure_token_stored _ _ Hfile), is_expiring_soon_spec, Hexp.
  change (0 + JWT_TTL_SECONDS - JWT_REFRESH_MARGIN_SECONDS) with 10500.
  destruct (time c <=? 10500); simpl; [reflexivity|].
  apply refresh_internal_token_calls.
Qed.

(** C3 as the code has it.  When the stored pair is due for refresh
    and the refresh request fails, in transport or with a status
    outside 2xx, [ensure_token] raises that httpx error: it runs no
    step of the identity flow, sends nothing else, and leaves the
    stored pair in place. *)
Theorem ensure_token_refresh_failure_raises c token :
  TOKEN_STORE_FILE c = Stored token ->
  is_expiring_soon token (time c) JWT_REFRESH_MARGIN_SECONDS = true ->
  request_fails (auth_server (time c) refresh_url
                   (RefreshBody (td_refresh_token token))).2 = true ->
  (exists msg, (ensure_token' c).1 = Raise (HTTPError msg))
  /\ TOKEN_STORE_FILE (ensure_token' c).2 = Stored token
  /\ trace (ensure_token' c).2 = refresh_request token :: trace c.
Proof.
  intros Hfile Hsoon Hfail.
  rewrite (ensure_token_stored _ _ Hfile), Hsoon.
  destruct (refresh_internal_token_fails token c Hfail) as [msg ->].
  simpl. split; [by exists msg|]. by split.
Qed.

End TokenCache.

Section TokenCacheRuns.

Import Scenario.

(** The agent authenticates at second 0 and holds [first_pair],
    expiring at 10800. *)
Example scenario_first_pair :
  agent (fresh_install 0)
  = (Ok first_pair,
     {| TOKEN_STORE_FILE := Stored first_pair; time := 0;
        trace := [SaveToken first_pair;
                  Post (AUTH_SERVER_URL ++ "/auth/verify")
                       (VerifyBody (Some entra_token) (Some "dev-1"));
                  AzureCli; GetDeviceId] |}).
Proof. vm_compute. reflexivity. Qed.

(** At second 10500 the margin is reached, [now < expires_at - margin]
    no longer holds, and still the cached pair is served and nothing
    is sent. *)
Lemma read_at_10500_does_not_refresh :
  (10500 <? expires_at first_pair - JWT_REFRESH_MARGIN_SECONDS) = false
  /\ agent (later 10500) = (Ok first_pair, later 10500)
  /\ network_calls (agent (later 10500)).2 = [].
Proof. repeat split; vm_compute; reflexivity. Qed.

Lemma ensure_token_fresh_until_10500_witness :
  agent (later 10500) = (Ok first_pair, later 10500)
  /\ network_calls (agent (later 10501)).2
     = [Post (AUTH_SERVER_URL ++ "/auth/refresh")
             (RefreshBody (td_refresh_token first_pair))].
Proof.
  split.
  - apply (ensure_token_fresh_until_10500 AUTH_SERVER_URL
             (0%N, Ok (Some "dev-1")) (0%N, Ok (Some entra_token))
             (0%N, Raise (RuntimeError "Device code flow init failed"))
             auth_server (later 10500) first_pair); reflexivity.
  - apply (ensure_token_fresh_until_10500 AUTH_SERVER_URL
             (0%N, Ok (Some "dev-1")) (0%N, Ok (Some entra_token))
             (0%N, Raise (RuntimeError "Device code flow init failed"))
             auth_server (later 10501) first_pair); reflexivity.
Defined.

(** Thirty days and a second later the refresh token has expired and
    the server answers 401.  The identity flow would succeed from
    this very state of the world, but the agent does not run it: it
    raises the httpx error and keeps the stale pair. *)
Lemma expired_refresh_surfaces_error :
  is_ok (agent (fresh_install 2592001)).1 = true
  /\ (agent (later 2592001)).1 = Raise (HTTPError "status")
  /\ identity_steps (agent (later 2592001)).2 = []
  /\ TOKEN_STORE_FILE (agent (later 2592001)).2 = Stored first_pair.
Proof. repeat split; vm_compute; reflexivity. Qed.

Lemma ensure_token_refresh_failure_raises_witness :
  (exists msg, (agent (later 2592001)).1 = Raise (HTTPError msg))
  /\ TOKEN_STORE_FILE (agent (later 2592001)).2 = Stored first_pair
  /\ trace (agent (later 2592001)).2
     = [Post (AUTH_SERVER_URL ++ "/auth/refresh")
             (RefreshBody (td_refresh_token first_pair))].
Proof.
  apply (ensure_token_refresh_failure_raises AUTH_SERVER_URL
           (0%N, Ok (Some "dev-1")) (0%N, Ok (Some entra_token))
           (0%N, Raise (RuntimeError "Device code flow init failed"))
           auth_server (later 2592001) first_pair).
  - reflexivity.
  - vm_compute. reflexivity.
  - vm_compute. reflexivity.
Defined.

End TokenCacheRuns.

(** ** The key-set cache, one request at a time *)

Section KeySetCache.

Variable cfg : Config.
Variable internet : Z -> string -> http_reply.

(** A valid entry is served as it is: no request, no change. *)
Lemma get_jwks_hit w :
  _is_cache_valid cfg (_jwks_cache w) "jwks" (monotonic w) = true ->
  exists d ts,
    _jwks_cache w !! "jwks" = Some (d, ts)
    /\ _get_jwks cfg internet w = (Ok d, w).
Proof.
  unfold _get_jwks, mbind, server_bind, ask. simpl.
  intros Hvalid. rewrite Hvalid.
  unfold _is_cache_valid in Hvalid.
  destruct (_jwks_cache w !! "jwks") as [[d ts]|]; [|discriminate].
  by exists d, ts.
Qed.

(** An entry is valid for the [OPENID_CACHE_TTL_SECONDS] seconds after
    its timestamp, and not at the last of them. *)
Lemma is_cache_valid_window cache key d ts now :
  cache !! key = Some (d, ts) ->
  _is_cache_valid cfg cache key now
  = (now <? ts + OPENID_CACHE_TTL_SECONDS cfg).
Proof.
  intros Hentry. unfold _is_cache_valid. rewrite Hentry.
  destruct (Z.ltb_spec (now - ts) (OPENID_CACHE_TTL_SECONDS cfg)),
           (Z.ltb_spec now (ts + OPENID_CACHE_TTL_SECONDS cfg));
    (reflexivity || lia).
Qed.

End KeySetCache.

Section KeySetCacheRuns.

Import Scenario.

(** With the lifetime 3600 and both documents fetched at second 0, a
    request at second 3599 fetches nothing and one at second 3601
    fetches each document once. *)
Example cache_window_3600 :
  fetched w2 = [jwks_url; discovery_url]
  /\ fetched (_get_jwks cfg internet (revisit 3599)).2 = []
  /\ fetched (_get_jwks cfg internet (revisit 3601)).2 = [jwks_url; discovery_url].
Proof. repeat split; vm_compute; reflexivity. Qed.

End KeySetCacheRuns.

(** * Further properties of the code *)

(** ** The key-set cache and its upstream fetches *)

Section KeySetFetches.

Variable cfg : Config.
Variable internet : Z -> string -> http_reply.

(** What one GET does to the world, whatever its outcome. *)
Lemma httpx_get_json_world url w :
  let w' := (httpx_get_json internet url w).2 in
  _openid_config_cache w' = _openid_config_cache w
  /\ _jwks_cache w' = _jwks_cache w
  /\ fetched w' = url :: fetched w
  /\ monotonic w <= monotonic w'.
Proof.
  unfold httpx_get_json.
  destruct (outcome _) as [|status [d|]]; simpl;
    try destruct ((200 <=? status) && (status <? 300)); simpl;
    repeat split; lia.
Qed.

Lemma httpx_get_json_Ok url w d w' :
  httpx_get_json internet url w = (Ok d, w') ->
  delivers (outcome (internet (monotonic w) url)) d.
Proof.
  unfold httpx_get_json, delivers.
  destruct (outcome _) as [|status [d'|]]; simpl; try discriminate.
  - destruct (200 <=? status) eqn:Hlo, (status <? 300) eqn:Hhi;
      simpl; try discriminate.
    intros [= <- _]. exists status. split; [reflexivity|]. lia.
  - destruct ((200 <=? status) && (status <? 300)); discriminate.
Qed.

Lemma get_openid_config_eq w :
  _get_openid_config cfg internet w =
  if bool_decide (ENTRA_TENANT_ID cfg ∈ [""; "YOUR_TENANT_ID"])
     || bool_decide (ENTRA_CLIENT_ID cfg ∈ [""; "YOUR_APP_REGISTRATION_CLIENT_ID"])
  then (Raise (HTTPException 500
          "Auth server is not configured (ENTRA_TENANT_ID/ENTRA_CLIENT_ID)"), w)
  else if bool_decide (INTERNAL_JWT_SECRET cfg ∈ [""; "CHANGE_ME_INTERNAL_JWT_SECRET"])
  then (Raise (HTTPException 500
          "Auth server is not configured (INTERNAL_JWT_SECRET)"), w)
  else if _is_cache_valid cfg (_openid_config_cache w) "config" (monotonic w)
  then match _openid_config_cache w !! "config" with
       | Some (d, _) => (Ok d, w)
       | None => (Raise (KeyError "config"), w)
       end
  else match httpx_get_json internet
               (ENTRA_AUTHORITY cfg ++ "/v2.0/.well-known/openid-configuration") w with
       | (Ok data, w1) => (Ok data, (store_openid_config data w1).2)
       | (Raise e, w1) => (Raise e, w1)
       end.
Proof.
  unfold _get_openid_config.
  destruct (_ || _); [reflexivity|].
  destruct (bool_decide _); [reflexivity|].
  unfold mbind, server_bind, ask. simpl.
  destruct (_is_cache_valid _ _ _ _).
  - destruct (_ !! _) as [[d ts]|]; reflexivity.
  - destruct (httpx_get_json _ _ _) as [[data|e] w1]; reflexivity.
Qed.

Lemma get_jwks_eq w :
  _get_jwks cfg internet w =
  if _is_cache_valid cfg (_jwks_cache w) "jwks" (monotonic w)
  then match _jwks_cache w !! "jwks" with
       | Some (d, _) => (Ok d, w)
       | None => (Raise (KeyError "jwks"), w)
       end
  else match _get_openid_config cfg internet w with
       | (Raise e, w1) => (Raise e, w1)
       | (Ok config, w1) =>
           match jwks_uri config with
           | None => (Raise (KeyError "jwks_uri"), w1)
           | Some uri =>
               match httpx_get_json internet uri w1 with
               | (Ok data, w2) => (Ok data, (store_jwks data w2).2)
               | (Raise e, w2) => (Raise e, w2)
               end
           end
       end.
Proof.
  unfold _get_jwks, mbind, server_bind, ask. simpl.
  destruct (_is_cache_valid _ _ _ _).
  - destruct (_ !! _) as [[d ts]|]; reflexivity.
  - destruct (_get_openid_config _ _ _) as [[config|e] w1]; [|reflexivity].
    destruct (jwks_uri config) as [uri|]; [|reflexivity].
    destruct (httpx_get_json _ _ _) as [[data|e] w2]; reflexivity.
Qed.

End KeySetFetches.

Section KeySetProperties.

Variable cfg : Config.
Variable internet : Z -> string -> http_reply.

(** Verification changes the server's state only through the key-set
    lookup. *)
Lemma validate_entra_token_world id_token w :
  (_validate_entra_token cfg internet id_token w).2
  = (_get_jwks cfg internet w).2.
Proof.
  rewrite validate_entra_token_eq.
  destruct (_get_jwks cfg internet w) as [[jwks|e] w1]; [|reflexivity].
  destruct (except_PyJWTError _ _ _) as [hd|e]; [|reflexivity].
  simpl. destruct (negb (truthy _)); [reflexivity|].
  destruct (find_key _ _) as [[key|]|e]; reflexivity.
Qed.

Lemma verify_world req w :
  (verify cfg internet req w).2 = (_get_jwks cfg internet w).2.
Proof.
  rewrite <- (validate_entra_token_world (id_token req)), verify_eq.
  destruct (_validate_entra_token _ _ _ _) as [[claims|e] w1]; [|reflexivity].
  simpl. destruct (negb (truthy _)); reflexivity.
Qed.

Lemma get_openid_config_fetches w :
  exists urls,
    fetched (_get_openid_config cfg internet w).2 = (urls ++ fetched w)%list
    /\ (length urls <= 1)%nat
    /\ monotonic w <= monotonic (_get_openid_config cfg internet w).2.
Proof.
  rewrite get_openid_config_eq.
  destruct (_ || _); [exists []; simpl; repeat split; lia|].
  destruct (bool_decide _); [exists []; simpl; repeat split; lia|].
  destruct (_is_cache_valid _ _ _ _).
  - exists []. destruct (_ !! _) as [[d ts]|]; simpl; repeat split; lia.
  - pose proof (httpx_get_json_world internet
      (ENTRA_AUTHORITY cfg ++ "/v2.0/.well-known/openid-configuration") w)
      as (_ & _ & Hf & Hm).
    destruct (httpx_get_json _ _ _) as [[data|e] w1]; simpl in *;
      eexists [_]; rewrite Hf; simpl; repeat split; lia.
Qed.

(** X1.  One call of [verify] sends at most two GETs, whatever the
    token, the caches and the network are; the log of earlier requests
    is kept. *)
Theorem verify_fetches_at_most_two req w :
  exists urls,
    fetched (verify cfg internet req w).2 = (urls ++ fetched w)%list
    /\ (length urls <= 2)%nat.
Proof.
  rewrite verify_world, get_jwks_eq.
  destruct (_is_cache_valid _ _ _ _).
  { exists []. destruct (_ !! _) as [[d ts]|]; simpl; split; (reflexivity || lia). }
  destruct (get_openid_config_fetches w) as (urls & Hf & Hlen & _).
  destruct (_get_openid_config _ _ _) as [[config|e] w1]; simpl in *;
    [|exists urls; split; [exact Hf|lia]].
  destruct (jwks_uri config) as [uri|]; simpl;
    [|exists urls; split; [exact Hf|lia]].
  pose proof (httpx_get_json_world internet uri w1) as (_ & _ & Hf2 & _).
  exists (uri :: urls).
  destruct (httpx_get_json _ _ _) as [[data|e] w2]; simpl in *;
    rewrite Hf2, Hf; split; (reflexivity || simpl; lia).
Qed.

(** X2.  While any of tenant, client id or signing secret has an inert
    default and no key set is cached, [POST /auth/verify] answers 500
    without sending a request or touching its state. *)
Theorem verify_unconfigured_500 req w :
  unconfigured cfg ->
  _jwks_cache w !! "jwks" = None ->
  exists detail,
    verify cfg internet req w = (Raise (HTTPException 500 detail), w).
Proof.
  intros Hun Hcold.
  rewrite verify_eq, validate_entra_token_eq, get_jwks_eq.
  unfold _is_cache_valid. rewrite Hcold, get_openid_config_eq.
  destruct Hun as [H|[H|H]].
  - rewrite (bool_decide_eq_true_2 _ H). by eexists.
  - rewrite (bool_decide_eq_true_2 _ H), orb_true_r. by eexists.
  - destruct (_ || _); [by eexists|].
    rewrite (bool_decide_eq_true_2 _ H). by eexists.
Qed.

(** X3.  While the cached key set is within its lifetime,
    [POST /auth/verify] sends no request and leaves the server's state
    as it found it, whatever it answers. *)
Theorem verify_on_valid_cache_is_local req w :
  _is_cache_valid cfg (_jwks_cache w) "jwks" (monotonic w) = true ->
  (verify cfg internet req w).2 = w.
Proof.
  intros Hvalid. rewrite verify_world.
  destruct (get_jwks_hit cfg internet w Hvalid) as (d & ts & _ & ->).
  reflexivity.
Qed.

(** X4.  With a positive lifetime a key set that was just returned is
    cached: asking again at once returns the same document and sends
    nothing. *)
Theorem get_jwks_again_hits w d w' :
  0 < OPENID_CACHE_TTL_SECONDS cfg ->
  _get_jwks cfg internet w = (Ok d, w') ->
  _get_jwks cfg internet w' = (Ok d, w').
Proof.
  intros Httl. rewrite get_jwks_eq.
  destruct (_is_cache_valid cfg (_jwks_cache w) "jwks" (monotonic w)) eqn:Hvalid.
  - destruct (_jwks_cache w !! "jwks") as [[d0 ts]|] eqn:Hentry; [|discriminate].
    intros [= <- <-]. rewrite get_jwks_eq, Hvalid, Hentry. reflexivity.
  - destruct (_get_openid_config _ _ _) as [[config|e] w1]; [|discriminate].
    destruct (jwks_uri config) as [uri|]; [|discriminate].
    destruct (httpx_get_json _ _ _) as [[data|e] w2]; [|discriminate].
    intros [= <- <-]. rewrite get_jwks_eq. unfold _is_cache_valid, store_jwks.
    simpl. rewrite lookup_insert_eq.
    replace (monotonic w2 - monotonic w2 <? OPENID_CACHE_TTL_SECONDS cfg)
      with true by (symmetry; apply Z.ltb_lt; lia).
    reflexivity.
Qed.

(** X5.  A key set [_get_jwks] returns is never a stale one: it is the
    cached entry, still within its lifetime and served without a
    request, or it is the body of a 2xx answer received during this
    call and is now the cached entry. *)
Theorem get_jwks_never_stale w d w' :
  _get_jwks cfg internet w = (Ok d, w') ->
  (exists ts, _jwks_cache w !! "jwks" = Some (d, ts)
              /\ monotonic w - ts < OPENID_CACHE_TTL_SECONDS cfg
              /\ w' = w)
  \/ (exists t uri, delivers (outcome (internet t uri)) d
                    /\ head (fetched w') = Some uri
                    /\ _jwks_cache w' !! "jwks" = Some (d, monotonic w')).
Proof.
  rewrite get_jwks_eq. unfold _is_cache_valid.
  destruct (_jwks_cache w !! "jwks") as [[d0 ts]|] eqn:Hentry.
  - destruct (Z.ltb_spec (monotonic w - ts) (OPENID_CACHE_TTL_SECONDS cfg)).
    + intros [= <- <-]. left. by exists ts.
    + destruct (_get_openid_config _ _ _) as [[config|e] w1]; [|discriminate].
      destruct (jwks_uri config) as [uri|]; [|discriminate].
      pose proof (httpx_get_json_world internet uri w1) as (_ & _ & Hf & _).
      destruct (httpx_get_json _ _ _) as [[data|e] w2] eqn:Hget; [|discriminate].
      intros [= <- <-]. right. exists (monotonic w1), uri.
      split; [exact (httpx_get_json_Ok _ _ _ _ _ Hget)|].
      simpl in *. rewrite Hf. split; [reflexivity|]. apply lookup_insert_eq.
  - destruct (_get_openid_config _ _ _) as [[config|e] w1]; [|discriminate].
    destruct (jwks_uri config) as [uri|]; [|discriminate].
    pose proof (httpx_get_json_world internet uri w1) as (_ & _ & Hf & _).
    destruct (httpx_get_json _ _ _) as [[data|e] w2] eqn:Hget; [|discriminate].
    intros [= <- <-]. right. exists (monotonic w1), uri.
    split; [exact (httpx_get_json_Ok _ _ _ _ _ Hget)|].
    simpl in *. rewrite Hf. split; [reflexivity|]. apply lookup_insert_eq.
Qed.

End KeySetProperties.

(** ** What external verification accepts and refuses *)

Section ExternalVerification.

Variable cfg : Config.
Variable internet : Z -> string -> http_reply.

Lemma decode_Ok_inv t key algs aud iss now payload :
  PyJWT.decode t key algs aud iss now = Ok payload ->
  exists h sig alg,
    t = PyJWT.Jwt h payload sig
    /\ PyJWT.h_alg h = Some alg /\ alg ∈ algs
    /\ PyJWT.verify_signature alg key sig = Ok tt
    /\ PyJWT.validate_timestamps payload now = Ok tt
    /\ PyJWT.validate_iss payload iss = Ok tt
    /\ PyJWT.validate_aud payload aud = Ok tt.
Proof.
  destruct t as [s|h claims sig]; simpl; [discriminate|].
  destruct (PyJWT.h_alg h) as [alg|] eqn:Halg; [|discriminate].
  unfold PyJWT.check. case_bool_decide as Hin; [|discriminate].
  unfold mbind, result_bind.
  destruct (PyJWT.verify_signature alg key sig) as [[]|] eqn:Hsig; [|discriminate].
  destruct (PyJWT.validate_timestamps claims now) as [[]|] eqn:Hts; [|discriminate].
  destruct (PyJWT.validate_iss claims iss) as [[]|] eqn:Hiss; [|discriminate].
  destruct (PyJWT.validate_aud claims aud) as [[]|] eqn:Haud; [|discriminate].
  intros [= <-]. exists h, sig, alg. repeat split; assumption || reflexivity.
Qed.

Lemma validate_iss_Some claims i :
  PyJWT.validate_iss claims (Some i) = Ok tt ->
  claims !! "iss" = Some (VStr i).
Proof.
  unfold PyJWT.validate_iss, PyJWT.check.
  destruct (claims !! "iss") as [v|]; [|discriminate].
  destruct v as [| | |s| |]; simpl; try discriminate.
  destruct (String.eqb_spec s i) as [->|]; [reflexivity|discriminate].
Qed.

Lemma existsb_eq_str l a :
  existsb (fun v => eq_str v a) l = true -> VStr a ∈ l.
Proof.
  induction l as [|v l IH]; simpl; [discriminate|].
  intros [Hv|Hl]%orb_true_iff.
  - destruct v as [| | |s| |]; simpl in Hv; try discriminate.
    apply String.eqb_eq in Hv as ->. apply list_elem_of_here.
  - apply list_elem_of_further, IH, Hl.
Qed.

Lemma validate_aud_Some claims a :
  PyJWT.validate_aud claims (Some a) = Ok tt ->
  names_audience (get "aud" claims) a.
Proof.
  unfold PyJWT.validate_aud, PyJWT.check, names_audience.
  destruct (negb (truthy (get "aud" claims))); [discriminate|].
  destruct (get "aud" claims) as [| | |s|l|]; try discriminate.
  - destruct (String.eqb_spec s a) as [->|]; [by left|discriminate].
  - unfold mbind, result_bind.
    destruct (forallb PyJWT.is_str l); [|discriminate].
    destruct (existsb _ l) eqn:Hex; [|discriminate].
    intros _. right. exists l. split; [reflexivity|].
    by apply existsb_eq_str.
Qed.

Lemma validate_timestamps_exp claims now e :
  PyJWT.validate_timestamps claims now = Ok tt ->
  claims !! "exp" = Some (VInt e) ->
  now < e.
Proof.
  unfold PyJWT.validate_timestamps, mbind, result_bind.
  intros H Hexp. rewrite Hexp in H. simpl in H.
  destruct (match claims !! "iat" with Some _ => _ | None => _ end);
    [|discriminate].
  destruct (match claims !! "nbf" with Some _ => _ | None => _ end);
    [|discriminate].
  unfold PyJWT.check in H.
  destruct (Z.ltb_spec now e); [assumption|discriminate].
Qed.

Lemma find_key_Some ks kid key :
  find_key ks kid = Ok (Some key) ->
  exists s k,
    kid = VStr s /\ key = PyJWT.RSAPublicKey k
    /\ {| jwk_kid := Some s; jwk_key := Some k |} ∈ ks.
Proof.
  induction ks as [|jwk ks IH]; simpl; [discriminate|].
  destruct (kid_matches jwk kid) eqn:Hm.
  - destruct jwk as [[s|] [k|]]; unfold kid_matches in Hm; simpl in *;
      try discriminate.
    destruct kid as [| | |s'| |]; try discriminate.
    apply String.eqb_eq in Hm as ->.
    intros [= <-]. exists s', k. repeat split. apply list_elem_of_here.
  - intros H. destruct (IH H) as (s & k & ? & ? & ?).
    exists s, k. repeat split; try assumption. by apply list_elem_of_further.
Qed.

Lemma find_key_None ks s :
  Forall (fun jwk => jwk_kid jwk <> Some s) ks ->
  find_key ks (VStr s) = Ok None.
Proof.
  induction 1 as [|jwk ks Hne _ IH]; simpl; [reflexivity|].
  unfold kid_matches. destruct (jwk_kid jwk) as [s'|]; [|exact IH].
  destruct (String.eqb_spec s' s) as [->|]; [congruence|exact IH].
Qed.

(** X6.  Every claim set [_validate_entra_token] returns comes from a
    token that declares RS256, names by its [kid] a key of the key set
    in use and is signed with the private half of that key, whose
    issuer is the tenant's issuer URL, whose audience names the
    configured client, and whose expiry, if it has one, lies in the
    future. *)
Theorem accepted_token_is_trusted id_token w claims w1 :
  _validate_entra_token cfg internet id_token w = (Ok claims, w1) ->
  exists jwks h kid k,
    _get_jwks cfg internet w = (Ok jwks, w1)
    /\ id_token = PyJWT.Jwt h claims (PyJWT.Signed "RS256" (PyJWT.RsaPrivate k))
    /\ PyJWT.h_alg h = Some "RS256"
    /\ PyJWT.h_kid h = Some (VStr kid)
    /\ {| jwk_kid := Some kid; jwk_key := Some k |} ∈ keys jwks
    /\ claims !! "iss" = Some (VStr (issuer_expected cfg))
    /\ names_audience (get "aud" claims) (ENTRA_CLIENT_ID cfg)
    /\ (forall e, claims !! "exp" = Some (VInt e) -> utcnow w1 < e).
Proof.
  rewrite validate_entra_token_eq.
  destruct (_get_jwks cfg internet w) as [[jwks|e] w'] eqn:Hjwks; [|discriminate].
  destruct (except_PyJWTError (PyJWT.get_unverified_header id_token) _ _)
    as [hd|e] eqn:Hhd; [|discriminate].
  apply except_PyJWTError_Ok in Hhd.
  simpl. destruct (negb (truthy _)); [discriminate|].
  destruct (find_key _ _) as [[key|]|e] eqn:Hkey; try discriminate.
  intros [= Hdec <-]. apply except_PyJWTError_Ok in Hdec.
  unfold decode_entra in Hdec.
  apply decode_Ok_inv in Hdec
    as (h & sig & alg & -> & Halg & Hin & Hsig & Hts & Hiss & Haud).
  apply list_elem_of_singleton in Hin. subst alg.
  destruct (verify_signature_rs256 _ _ Hsig) as (k & -> & ->).
  simpl in Hhd.
  assert (hd = h) as ->.
  { destruct (PyJWT.h_kid h) as [[]|]; congruence. }
  destruct (find_key_Some _ _ _ Hkey) as (s & k' & Hkid & [= <-] & Hmem).
  exists jwks, h, s, k. repeat split; try assumption.
  - destruct (PyJWT.h_kid h) as [v|]; simpl in Hkid; congruence.
  - by apply validate_iss_Some.
  - by apply validate_aud_Some.
  - intros e. by apply validate_timestamps_exp.
Qed.

(** X7.  When the key set in use has no key with the token's [kid],
    [_validate_entra_token] raises 401 and [verify] issues nothing,
    whatever the token's claims and signature are. *)
Theorem unknown_kid_rejected h claims sig kid dev w jwks w1 :
  _get_jwks cfg internet w = (Ok jwks, w1) ->
  PyJWT.h_kid h = Some (VStr kid) ->
  kid <> "" ->
  Forall (fun jwk => jwk_kid jwk <> Some kid) (keys jwks) ->
  _validate_entra_token cfg internet (PyJWT.Jwt h claims sig) w
    = (Raise (HTTPException 401 "Signing key not found for token"), w1)
  /\ verify cfg internet
       {| id_token := PyJWT.Jwt h claims sig; device_id := dev |} w
     = (Raise (HTTPException 401 "Signing key not found for token"), w1).
Proof.
  intros Hjwks Hkid Hne Hnone.
  assert (_validate_entra_token cfg internet (PyJWT.Jwt h claims sig) w
          = (Raise (HTTPException 401 "Signing key not found for token"), w1))
    as Hval.
  { rewrite validate_entra_token_eq, Hjwks. simpl. rewrite Hkid. simpl.
    rewrite Hkid. simpl.
    apply String.eqb_neq in Hne. rewrite Hne. simpl.
    by rewrite find_key_None. }
  split; [exact Hval|]. rewrite verify_eq. simpl. by rewrite Hval.
Qed.

(** X8.  A token without a [kid] header, or with an empty one, is
    answered with 401 as soon as a key set is available; its
    signature is never looked at. *)
Theorem missing_kid_rejected h claims sig dev w jwks w1 :
  _get_jwks cfg internet w = (Ok jwks, w1) ->
  PyJWT.h_kid h = None \/ PyJWT.h_kid h = Some (VStr "") ->
  verify cfg internet
    {| id_token := PyJWT.Jwt h claims sig; device_id := dev |} w
  = (Raise (HTTPException 401 "Missing kid in token header"), w1).
Proof.
  intros Hjwks Hkid.
  rewrite verify_eq. simpl. rewrite validate_entra_token_eq, Hjwks. simpl.
  destruct Hkid as [Hkid|Hkid]; rewrite Hkid; simpl; rewrite Hkid; reflexivity.
Qed.

End ExternalVerification.

(** ** Internal tokens between issuer, refresh endpoint and gateway *)

Section InternalRoundTrips.

Variable cfg : Config.

Lemma verify_signature_hs256 s sig :
  PyJWT.verify_signature "HS256" (PyJWT.KeyStr s) sig = Ok tt ->
  sig = PyJWT.Signed "HS256" (PyJWT.Hmac (PyJWT.RawSecret s)).
Proof.
  unfold PyJWT.verify_signature. simpl.
  destruct sig as [a [[s'|k]|k]|]; try discriminate.
  destruct (String.eqb_spec a "HS256") as [->|]; [|discriminate].
  destruct (String.eqb_spec s' s) as [->|]; [|discriminate].
  reflexivity.
Qed.

(** Under HS256 and a string key, every refusal of a signature is a
    PyJWT error. *)
Lemma verify_signature_hs256_refuses s sig :
  sig <> PyJWT.Signed "HS256" (PyJWT.Hmac (PyJWT.RawSecret s)) ->
  exists msg,
    PyJWT.verify_signature "HS256" (PyJWT.KeyStr s) sig = Raise (PyJWTError msg).
Proof.
  intros Hne. unfold PyJWT.verify_signature. simpl.
  destruct sig as [a [[s'|k]|k]|]; try by eexists.
  destruct (String.eqb_spec a "HS256") as [->|]; [|by eexists].
  destruct (String.eqb_spec s' s) as [->|]; [congruence|by eexists].
Qed.




(** What [get_current_user] returning a payload implies. *)
Lemma get_current_user_Ok_inv
    authorization x_api_key now payload :
  get_current_user cfg authorization x_api_key now = Ok payload ->
  ~ secret_is_default cfg
  /\ get "type" payload = VStr "access"
  /\ (forall e, payload !! "exp" = Some (VInt e) -> now < e)
  /\ exists h,
       _extract_token authorization x_api_key
       = Ok (PyJWT.Jwt h payload
               (PyJWT.Signed "HS256"
                  (PyJWT.Hmac (PyJWT.RawSecret (INTERNAL_JWT_SECRET cfg)))))
       /\ PyJWT.h_alg h = Some "HS256".
Proof.
  unfold get_current_user. case_bool_decide as Hdef; [discriminate|].
  destruct (_extract_token authorization x_api_key) as [token|e]; [|discriminate].
  simpl.
  destruct (except_PyJWTError _ _ _) as [p|e] eqn:Hdec; [|discriminate].
  apply except_PyJWTError_Ok in Hdec. simpl.
  destruct (eq_str (get "type" p) "access") eqn:Htype; [|discriminate].
  simpl. intros [= <-].
  apply decode_Ok_inv in Hdec
    as (h & sig & alg & -> & Halg & Hin & Hsig & Hts & _ & _).
  apply list_elem_of_singleton in Hin. subst alg.
  apply verify_signature_hs256 in Hsig as ->.
  split; [exact Hdef|]. split.
  - destruct (get "type" p) as [| | |s| |]; try discriminate.
    simpl in Htype. by apply String.eqb_eq in Htype as ->.
  - split; [intros e; by apply validate_timestamps_exp|].
    by exists h.
Qed.



(** X13.  A token that is not an HS256 signature under the configured
    secret, such as one issued under another secret, is answered with
    401 by the refresh endpoint and by a configured gateway, whatever
    it claims. *)
Theorem foreign_token_is_401 h claims sig authorization x_api_key w :
  sig <> PyJWT.Signed "HS256"
           (PyJWT.Hmac (PyJWT.RawSecret (INTERNAL_JWT_SECRET cfg))) ->
  ~ secret_is_default cfg ->
  _extract_token authorization x_api_key = Ok (PyJWT.Jwt h claims sig) ->
  refresh cfg {| req_refresh_token := PyJWT.Jwt h claims sig |} w
    = (Raise (HTTPException 401 "Invalid refresh token"), w)
  /\ get_current_user cfg authorization x_api_key (utcnow w)
     = Raise (HTTPException 401 "Invalid internal token").
Proof.
  intros Hsig Hconf Hx.
  assert (exists msg, decode_refresh cfg (PyJWT.Jwt h claims sig) (utcnow w)
                      = Raise (PyJWTError msg)) as [msg Hdec].
  { unfold decode_refresh, PyJWT.decode.
    destruct (PyJWT.h_alg h) as [alg|]; [|by eexists].
    unfold PyJWT.check. case_bool_decide as Hin; [|by eexists].
    apply list_elem_of_singleton in Hin. subst alg.
    destruct (verify_signature_hs256_refuses _ _ Hsig) as [msg Hv].
    simpl. unfold INTERNAL_JWT_ALG. rewrite Hv. by eexists. }
  split.
  - rewrite refresh_eq. cbn [req_refresh_token]. by rewrite Hdec.
  - unfold get_current_user.
    rewrite bool_decide_eq_false_2 by exact Hconf.
    rewrite Hx. cbn [mbind result_bind].
    unfold decode_refresh in Hdec. by rewrite Hdec.
Qed.

End InternalRoundTrips.

(** ** The gateway's endpoints *)

Section GatewayProperties.

Variable cfg : Config.
Variable BEDROCK_MODEL_ID : string.
Variable ANTHROPIC_VERSION : string.
Variable invoke_model : string -> gmap string value -> result value.
Variable invoke_model_raw : string -> string -> result string.

Lemma string_app_assoc (a b c : string) : (a ++ b) ++ c = a ++ (b ++ c).
Proof.
  induction a as [|x a IH]; [reflexivity|].
  change (String x ((a ++ b) ++ c) = String x (a ++ (b ++ c))).
  f_equal. exact IH.
Qed.

Lemma string_app_empty_r (a : string) : a ++ "" = a.
Proof.
  induction a as [|x a IH]; [reflexivity|].
  change (String x (a ++ "") = String x a).
  f_equal. exact IH.
Qed.

Lemma chat_messages_spec messages system_prompt messages_payload :
  chat_messages messages system_prompt messages_payload
  = (system_prompt ++ system_prompt_of messages,
     (messages_payload ++ map message_payload (dialogue_of messages))%list).
Proof.
  revert system_prompt messages_payload.
  induction messages as [|m rest IH]; intros sp mp.
  - simpl. unfold system_prompt_of, dialogue_of. simpl.
    by rewrite string_app_empty_r, app_nil_r.
  - simpl. unfold system_prompt_of, dialogue_of, is_system in *. simpl.
    destruct (String.eqb (role m) "system"); simpl; rewrite IH.
    + by rewrite !string_app_assoc.
    + by rewrite <- app_assoc.
Qed.

(** A conversation has an empty system prompt only if it has no system
    message: every system message contributes at least its newline. *)
Lemma system_prompt_of_empty messages :
  String.eqb (system_prompt_of messages) ""
  = negb (existsb is_system messages).
Proof.
  unfold system_prompt_of.
  induction messages as [|m rest IH]; simpl; [reflexivity|].
  destruct (is_system m); simpl; [|exact IH].
  destruct (content m); reflexivity.
Qed.

(** X14.  The request [chat] sends to Bedrock: its [messages] are the
    non-system messages of the conversation, in their order, one text
    block each; it has a [system] member exactly when the conversation
    has a system message, holding the system contents in order, each
    followed by a newline; and [max_tokens] is 4096. *)
Theorem chat_body_spec messages :
  chat_body ANTHROPIC_VERSION messages !! "messages"
    = Some (VList (map message_payload (dialogue_of messages)))
  /\ chat_body ANTHROPIC_VERSION messages !! "system"
     = (if existsb is_system messages
        then Some (VStr (system_prompt_of messages))
        else None)
  /\ chat_body ANTHROPIC_VERSION messages !! "max_tokens" = Some (VInt 4096)
  /\ chat_body ANTHROPIC_VERSION messages !! "anthropic_version"
     = Some (VStr ANTHROPIC_VERSION).
Proof.
  unfold chat_body. rewrite chat_messages_spec.
  change ("" ++ system_prompt_of messages) with (system_prompt_of messages).
  rewrite app_nil_l, system_prompt_of_empty, negb_involutive.
  destruct (existsb is_system messages); repeat split; by simplify_map_eq.
Qed.

Lemma collect_text_items ss text :
  collect_text (map text_item ss) text
  = Ok (text ++ fold_right String.append "" ss).
Proof.
  revert text. induction ss as [|s ss IH]; intros text; simpl.
  - by rewrite string_app_empty_r.
  - rewrite IH. by rewrite string_app_assoc.
Qed.

(** X15.  For a Bedrock answer whose [content] is a list of text
    blocks, [chat] returns their texts joined in order, and the
    could-not-be-parsed notice when that is empty. *)
Theorem chat_text_of_text_blocks d ss :
  dict_get "content" d = Some (VList (map text_item ss)) ->
  chat_text (VDict d)
  = Ok (if String.eqb (fold_right String.append "" ss) ""
        then unparsed
        else fold_right String.append "" ss).
Proof.
  intros Hcontent. unfold chat_text, content_list. rewrite Hcontent.
  rewrite collect_text_items. reflexivity.
Qed.

(** X16.  When [chat] answers, it made exactly one Bedrock invocation,
    of the configured model with the body above, and its answer has
    one choice, of index 0 and role [assistant], whose content is not
    empty. *)
Theorem chat_answer_shape messages authorization x_api_key now resp calls :
  chat cfg BEDROCK_MODEL_ID ANTHROPIC_VERSION invoke_model
       messages authorization x_api_key now = (Ok resp, calls) ->
  calls = [(BEDROCK_MODEL_ID, chat_body ANTHROPIC_VERSION messages)]
  /\ exists text,
       choices resp = [ {| index := 0;
                           message := {| role := "assistant";
                                         content := text |} |} ]
       /\ text <> "".
Proof.
  unfold chat.
  destruct (get_current_user _ _ _ _) as [user|e]; [|discriminate].
  destruct (invoke_model _ _) as [payload|e]; simpl; [|discriminate].
  unfold chat_text.
  destruct (match content_list payload with Some _ => _ | None => _ end)
    as [text|e]; simpl; [|discriminate].
  intros [= <- <-]. split; [reflexivity|].
  eexists. split; [reflexivity|].
  destruct (String.eqb_spec text ""); [discriminate|assumption].
Qed.

(** X17.  No Bedrock invocation without a valid credential: if [chat]
    or [bedrock_invoke] invoked a model, the request carried a token
    signed with the configured, non-default secret and of type
    [access]; and the streaming endpoint never invokes a model and
    never succeeds. *)
Theorem bedrock_only_behind_access_token
    messages raw model_id_param authorization x_api_key now :
  (chat cfg BEDROCK_MODEL_ID ANTHROPIC_VERSION invoke_model
        messages authorization x_api_key now).2 <> []
  \/ (bedrock_invoke cfg BEDROCK_MODEL_ID invoke_model_raw
        raw model_id_param authorization x_api_key now).2 <> [] ->
  ~ secret_is_default cfg
  /\ (exists h payload,
        _extract_token authorization x_api_key
        = Ok (PyJWT.Jwt h payload
                (PyJWT.Signed "HS256"
                   (PyJWT.Hmac (PyJWT.RawSecret (INTERNAL_JWT_SECRET cfg)))))
        /\ get "type" payload = VStr "access")
  /\ bedrock_invoke_stream cfg authorization x_api_key now
     = (Raise (HTTPException 501 "Streaming not implemented"), []).
Proof.
  intros Hcalls.
  assert (exists payload,
            get_current_user cfg authorization x_api_key now = Ok payload)
    as [payload Huser].
  { unfold chat, bedrock_invoke in Hcalls.
    destruct (get_current_user _ _ _ _) as [user|e]; [by eexists|].
    simpl in Hcalls. by destruct Hcalls. }
  destruct (get_current_user_Ok_inv _ _ _ _ _ Huser)
    as (Hconf & Htype & _ & h & Hx & _).
  split; [exact Hconf|]. split; [by exists h, payload|].
  unfold bedrock_invoke_stream. by rewrite Huser.
Qed.

End GatewayProperties.

(** ** The token cache in every state *)

Section TokenCacheInvariants.

Variable AUTH_SERVER_URL : string.
Variable device : N * result (option string).
Variable az_cli : N * result (option PyJWT.token).
Variable msal_device_code : N * result (option PyJWT.token).
Variable auth_server : Z -> string -> request_body -> N * post_outcome.

#[local] Abbreviation ensure_token' :=
  (ensure_token AUTH_SERVER_URL device az_cli msal_device_code auth_server).
#[local] Abbreviation exchange' :=
  (exchange_entra_for_internal_token AUTH_SERVER_URL auth_server).
#[local] Abbreviation refresh' :=
  (refresh_internal_token AUTH_SERVER_URL auth_server).

(** What a POST yields, and the state it leaves. *)
Lemma httpx_post_json_eq url payload c :
  httpx_post_json auth_server url payload c =
  (match (auth_server (time c) url payload).2 with
   | PostTransportError => Raise (HTTPError "transport")
   | PostResponse status body =>
       if (200 <=? status) && (status <? 300) then
         match body with
         | Some d => Ok d
         | None => Raise JSONDecodeError
         end
       else Raise (HTTPError "status")
   end,
   {| TOKEN_STORE_FILE := TOKEN_STORE_FILE c;
      time := time c + Z.of_N (auth_server (time c) url payload).1;
      trace := Post url payload :: trace c |}).
Proof. reflexivity. Qed.

(** The exchange: one POST, then the pair built on the client's clock. *)
Lemma exchange_eq id_token device_id c :
  exchange' id_token device_id c =
  let r := httpx_post_json auth_server (AUTH_SERVER_URL ++ "/auth/verify")
             (VerifyBody id_token device_id) c in
  match r.1 with
  | Ok data => (token_of_response data (time r.2), r.2)
  | Raise e => (Raise e, r.2)
  end.
Proof.
  unfold exchange_entra_for_internal_token, mbind, agent_bind.
  rewrite httpx_post_json_eq. simpl.
  destruct (auth_server _ _ _).2 as [|status [d|]]; simpl;
    try destruct ((200 <=? status) && (status <? 300)); reflexivity.
Qed.

Lemma refresh_internal_token_eq token c :
  refresh' token c =
  let r := httpx_post_json auth_server (AUTH_SERVER_URL ++ "/auth/refresh")
             (RefreshBody (td_refresh_token token)) c in
  match r.1 with
  | Ok data =>
      match token_of_response data (time r.2) with
      | Ok new_token =>
          (Ok new_token,
           {| TOKEN_STORE_FILE := Stored new_token;
              time := time r.2;
              trace := SaveToken new_token :: trace r.2 |})
      | Raise e => (Raise e, r.2)
      end
  | Raise e => (Raise e, r.2)
  end.
Proof.
  unfold refresh_internal_token, mbind, agent_bind.
  rewrite httpx_post_json_eq. simpl.
  destruct (auth_server _ _ _).2 as [|status [d|]]; simpl;
    try destruct ((200 <=? status) && (status <? 300)); try reflexivity;
    simpl; destruct (token_of_response _ _); reflexivity.
Qed.

(** The run of [ensure_token] when there is no token file. *)
Lemma ensure_token_absent c :
  TOKEN_STORE_FILE c = NoFile ->
  ensure_token' c =
  let c1 := {| TOKEN_STORE_FILE := NoFile;
               time := time c + Z.of_N device.1;
               trace := GetDeviceId :: trace c |} in
  match device.2 with
  | Raise e => (Raise e, c1)
  | Ok device_id =>
      let c2 := {| TOKEN_STORE_FILE := NoFile;
                   time := time c1 + Z.of_N az_cli.1;
                   trace := AzureCli :: trace c1 |} in
      match az_cli.2 with
      | Raise e => (Raise e, c2)
      | Ok az =>
          let c3 := {| TOKEN_STORE_FILE := NoFile;
                       time := time c2 + Z.of_N msal_device_code.1;
                       trace := MsalDeviceCode :: trace c2 |} in
          let flow := if falsy az then (msal_device_code.2, c3)
                      else (Ok az, c2) in
          match flow.1 with
          | Raise e => (Raise e, flow.2)
          | Ok entra_token =>
              match exchange' entra_token device_id flow.2 with
              | (Raise e, c4) => (Raise e, c4)
              | (Ok token, c4) =>
                  (Ok token,
                   {| TOKEN_STORE_FILE := Stored token;
                      time := time c4;
                      trace := SaveToken token :: trace c4 |})
              end
          end
      end
  end.
Proof.
  intros Hfile.
  unfold ensure_token, mbind, agent_bind, load_token, get_device_id,
    get_entra_token_via_azure_cli, get_entra_id_token_via_msal_device_code,
    interact, save_token.
  rewrite Hfile. simpl. rewrite !Hfile.
  destruct device.2 as [device_id|e]; [|reflexivity].
  destruct az_cli.2 as [az|e]; [|reflexivity].
  destruct (falsy az); simpl.
  - destruct msal_device_code.2 as [entra|e]; [|reflexivity].
    destruct (exchange' _ _ _) as [[token|e] c4]; reflexivity.
  - unfold mret, agent_ret.
    destruct (exchange' _ _ _) as [[token|e] c4]; reflexivity.
Qed.

#[local] Abbreviation networked tr :=
  (filter (fun ev => is_network ev = true) tr).
#[local] Abbreviation identity tr :=
  (filter (fun ev => is_identity_flow ev = true) tr).

Lemma networked_cons ev tr :
  networked (ev :: tr)
  = if is_network ev then ev :: networked tr else networked tr.
Proof.
  rewrite filter_cons. destruct (is_network ev); by case_decide.
Qed.

Lemma identity_cons ev tr :
  identity (ev :: tr)
  = if is_identity_flow ev then ev :: identity tr else identity tr.
Proof.
  rewrite filter_cons. destruct (is_identity_flow ev); by case_decide.
Qed.

(** The state an exchange leaves, whatever its outcome. *)
Lemma exchange_state id_token device_id c :
  (exchange' id_token device_id c).2
  = {| TOKEN_STORE_FILE := TOKEN_STORE_FILE c;
       time := time c + Z.of_N (auth_server (time c)
                 (AUTH_SERVER_URL ++ "/auth/verify")
                 (VerifyBody id_token device_id)).1;
       trace := Post (AUTH_SERVER_URL ++ "/auth/verify")
                     (VerifyBody id_token device_id) :: trace c |}.
Proof.
  rewrite exchange_eq, httpx_post_json_eq. cbn zeta.
  cbn [fst snd].
  destruct (match (auth_server _ _ _).2 with
            | PostTransportError => _ | PostResponse _ _ => _ end);
    reflexivity.
Qed.

(** A returned pair is the stored pair. *)
Lemma ensure_token_Ok_stored c token c' :
  ensure_token' c = (Ok token, c') ->
  TOKEN_STORE_FILE c' = Stored token.
Proof.
  destruct (TOKEN_STORE_FILE c) as [| |stored] eqn:Hfile.
  - rewrite (ensure_token_absent c Hfile). cbn zeta.
    destruct device.2; [|discriminate].
    destruct az_cli.2 as [az|]; [|discriminate].
    destruct (if falsy az then _ else _) as [[entra|e] c3]; [|discriminate].
    cbn [fst snd].
    destruct (exchange' _ _ _) as [[t|e] c4]; [|discriminate].
    by intros [= <- <-].
  - unfold ensure_token, mbind, agent_bind, load_token. rewrite Hfile.
    discriminate.
  - rewrite (ensure_token_stored _ _ _ _ _ _ _ Hfile).
    destruct (is_expiring_soon _ _ _); [|by intros [= <- <-]].
    rewrite refresh_internal_token_eq. cbn zeta.
    destruct (httpx_post_json _ _ _ _).1 as [data|e]; [|discriminate].
    destruct (token_of_response _ _); [|discriminate].
    by intros [= <- <-].
Qed.

(** X18.  Whenever [ensure_token] returns a pair, the token file holds
    that very pair: what callers are handed and what is persisted
    never differ. *)
Theorem ensure_token_returns_stored_pair c token c' :
  ensure_token AUTH_SERVER_URL device az_cli msal_device_code auth_server c
    = (Ok token, c') ->
  TOKEN_STORE_FILE c' = Stored token.
Proof. apply ensure_token_Ok_stored. Qed.


Lemma refresh_state token c :
  exists evs,
    trace (refresh' token c).2
    = (evs ++ Post (AUTH_SERVER_URL ++ "/auth/refresh")
                   (RefreshBody (td_refresh_token token)) :: trace c)%list
    /\ networked evs = [] /\ identity evs = []
    /\ time (refresh' token c).2
       = time c + Z.of_N (auth_server (time c)
                   (AUTH_SERVER_URL ++ "/auth/refresh")
                   (RefreshBody (td_refresh_token token))).1.
Proof.
  rewrite refresh_internal_token_eq, httpx_post_json_eq. cbn zeta.
  cbn [fst snd].
  destruct (match (auth_server _ _ _).2 with
            | PostTransportError => _ | PostResponse _ _ => _ end)
    as [data|e]; [|by exists []].
  destruct (token_of_response _ _) as [new_token|e]; [|by exists []].
  by exists [SaveToken new_token].
Qed.

#[local] Ltac give_events :=
  first [ eexists [_; _; _; _; _]; split; [reflexivity|]
        | eexists [_; _; _; _]; split; [reflexivity|]
        | eexists [_; _; _]; split; [reflexivity|] ].

(** The events one call of [ensure_token] adds to the trace. *)
Lemma ensure_token_events c :
  exists evs,
    trace (ensure_token' c).2 = (evs ++ trace c)%list
    /\ (length (networked evs) <= 1)%nat
    /\ (TOKEN_STORE_FILE c <> NoFile -> identity evs = [])
    /\ time c <= time (ensure_token' c).2.
Proof.
  destruct (TOKEN_STORE_FILE c) as [| |stored] eqn:Hfile.
  - rewrite (ensure_token_absent c Hfile). cbn zeta.
    destruct device.2 as [dev|];
      [|exists [GetDeviceId]; simpl; repeat split; (lia || done)].
    destruct az_cli.2 as [az|];
      [|exists [AzureCli; GetDeviceId]; simpl; repeat split; (lia || done)].
    destruct (falsy az); cbn [fst snd].
    + destruct msal_device_code.2 as [entra|];
        [|exists [MsalDeviceCode; AzureCli; GetDeviceId]; simpl;
          repeat split; (lia || done)].
      match goal with
      | |- context [exchange' ?i ?d ?c0] =>
          pose proof (exchange_state i d c0) as Hst
      end.
      destruct (exchange' _ _ _) as [[t|e'] c4]; simpl in Hst; subst c4;
        simpl; give_events; rewrite ?networked_cons; simpl;
        repeat split; (lia || done).
    + match goal with
      | |- context [exchange' ?i ?d ?c0] =>
          pose proof (exchange_state i d c0) as Hst
      end.
      destruct (exchange' _ _ _) as [[t|e'] c4]; simpl in Hst; subst c4;
        simpl; give_events; rewrite ?networked_cons; simpl;
        repeat split; (lia || done).
  - unfold ensure_token, mbind, agent_bind, load_token. rewrite Hfile.
    exists []. simpl. repeat split; (lia || done).
  - rewrite (ensure_token_stored _ _ _ _ _ _ _ Hfile).
    destruct (is_expiring_soon _ _ _);
      [|exists []; simpl; repeat split; (lia || done)].
    destruct (refresh_state stored c) as (evs & Htr & Hnet & Hid & Htime).
    eexists (evs ++ [_])%list. rewrite <- app_assoc. split; [exact Htr|].
    rewrite !filter_app, Hnet, Hid, networked_cons, identity_cons. simpl.
    repeat split; (lia || done).
Qed.

(** X20.  One call of [ensure_token] sends at most one request to the
    auth server, in every state and whatever the environment answers;
    the requests sent before are kept in the log. *)
Theorem ensure_token_sends_at_most_one_request c :
  exists sent,
    network_calls (ensure_token' c).2 = (sent ++ network_calls c)%list
    /\ (length sent <= 1)%nat.
Proof.
  destruct (ensure_token_events c) as (evs & Htr & Hnet & _ & _).
  exists (networked evs). split; [|exact Hnet].
  unfold network_calls. by rewrite Htr, filter_app.
Qed.

(** X21.  [ensure_token] runs the identity flow only when there is no
    token file: with a stored pair, fresh or stale, or with an
    unreadable file, neither the Azure CLI nor the device-code flow is
    started. *)
Theorem identity_flow_only_without_file c :
  TOKEN_STORE_FILE c <> NoFile ->
  identity_steps (ensure_token' c).2 = identity_steps c.
Proof.
  intros Hfile.
  destruct (ensure_token_events c) as (evs & Htr & _ & Hid & _).
  unfold identity_steps. by rewrite Htr, filter_app, (Hid Hfile).
Qed.

(** X22.  Without a token file, when the Azure CLI yields a non-empty
    token the device-code flow is not started: the only identity step
    is the CLI, and the one request sent is the exchange of that token
    with the device id. *)
Theorem azure_cli_token_preferred c dev tok :
  TOKEN_STORE_FILE c = NoFile ->
  device.2 = Ok dev ->
  az_cli.2 = Ok (Some tok) ->
  nonempty tok = true ->
  identity_steps (ensure_token' c).2 = AzureCli :: identity_steps c
  /\ network_calls (ensure_token' c).2
     = Post (AUTH_SERVER_URL ++ "/auth/verify") (VerifyBody (Some tok) dev)
       :: network_calls c.
Proof.
  intros Hfile Hdev Haz Hne.
  rewrite (ensure_token_absent c Hfile). cbn zeta.
  rewrite Hdev, Haz. unfold falsy. rewrite Hne. cbn [negb fst snd].
  match goal with
  | |- context [exchange' ?i ?d ?c0] =>
      pose proof (exchange_state i d c0) as Hst
  end.
  unfold identity_steps, network_calls.
  destruct (exchange' _ _ _) as [[t|e'] c4]; simpl in Hst; subst c4;
    cbn [snd trace]; rewrite ?networked_cons, ?identity_cons; simpl; done.
Qed.

(** X23.  Without a token file, when the Azure CLI yields nothing
    usable and the device-code flow raises, [ensure_token] raises that
    error, having sent nothing, and there is still no token file. *)
Theorem identity_flow_failure_is_fatal c dev az e :
  TOKEN_STORE_FILE c = NoFile ->
  device.2 = Ok dev ->
  az_cli.2 = Ok az ->
  falsy az = true ->
  msal_device_code.2 = Raise e ->
  (ensure_token' c).1 = Raise e
  /\ network_calls (ensure_token' c).2 = network_calls c
  /\ TOKEN_STORE_FILE (ensure_token' c).2 = NoFile.
Proof.
  intros Hfile Hdev Haz Hfalsy Hmsal.
  rewrite (ensure_token_absent c Hfile). cbn zeta.
  rewrite Hdev, Haz, Hfalsy. cbn [fst snd]. rewrite Hmsal.
  unfold network_calls. cbn [fst snd trace TOKEN_STORE_FILE].
  rewrite !networked_cons. simpl. done.
Qed.





End TokenCacheInvariants.

(** ** The refresh loop *)

Section RefreshLoopProperties.

Variable AUTH_SERVER_URL : string.
Variable device : N * result (option string).
Variable az_cli : N * result (option PyJWT.token).
Variable msal_device_code : N * result (option PyJWT.token).
Variable auth_server : Z -> string -> request_body -> N * post_outcome.
Variable oversleep : Z -> N.

#[local] Abbreviation ensure_token' :=
  (ensure_token AUTH_SERVER_URL device az_cli msal_device_code auth_server).
#[local] Abbreviation turn :=
  (refresh_loop_turn AUTH_SERVER_URL device az_cli msal_device_code
                     auth_server oversleep).
#[local] Abbreviation loop :=
  (refresh_loop_cli AUTH_SERVER_URL device az_cli msal_device_code
                    auth_server oversleep).

Lemma refresh_loop_turn_eq c :
  turn c =
  match ensure_token' c with
  | (Ok token, c1) =>
      (Ok tt,
       {| TOKEN_STORE_FILE := TOKEN_STORE_FILE c1;
          time := time c1 + sleep_for token (time c1)
                  + Z.of_N (oversleep (time c1));
          trace := trace c1 |})
  | (Raise e, c1) => (Raise e, c1)
  end.
Proof.
  unfold refresh_loop_turn, mbind, agent_bind.
  destruct (ensure_token' c) as [[token|e] c1]; reflexivity.
Qed.

Lemma sleep_for_at_least_60 token now : 60 <= sleep_for token now.
Proof. unfold sleep_for. lia. Qed.

(** X25.  Over any number of completed turns the loop advances the
    clock by at least a minute per turn and sends at most one request
    per turn; if a token file existed at the start, readable or not,
    the loop never starts the identity flow. *)
Theorem refresh_loop_pace turns c c' :
  loop turns c = (Ok tt, c') ->
  time c + 60 * Z.of_nat turns <= time c'
  /\ (length (network_calls c') <= length (network_calls c) + turns)%nat
  /\ (TOKEN_STORE_FILE c <> NoFile -> identity_steps c' = identity_steps c).
Proof.
  revert c. induction turns as [|n IH]; intros c.
  - intros [= <-]. repeat split; lia.
  - cbn [refresh_loop_cli]. unfold mbind, agent_bind.
    rewrite refresh_loop_turn_eq.
    destruct (ensure_token_events AUTH_SERVER_URL device az_cli
                msal_device_code auth_server c)
      as (evs & Htr & Hnet & Hid & Htime).
    destruct (ensure_token' c) as [[token|e] c1] eqn:Hens; [|discriminate].
    pose proof (ensure_token_Ok_stored _ _ _ _ _ _ _ _ Hens) as Hst.
    intros Hloop. apply IH in Hloop as (Ht & Hn & Hi).
    cbn [time TOKEN_STORE_FILE snd] in *.
    pose proof (sleep_for_at_least_60 token (time c1)).
    split; [lia|]. split.
    + unfold network_calls in *. cbn [trace] in *.
      rewrite Htr, filter_app, length_app in Hn. lia.
    + intros Hfile. unfold identity_steps in *. cbn [trace] in *.
      rewrite Hi by (rewrite Hst; discriminate).
      by rewrite Htr, filter_app, (Hid Hfile).
Qed.

(** X26.  When the pair a turn holds is not yet within the margin and
    the sleep overshoots by less than 240 seconds, the turn ends at
    least a minute later and before that pair expires, with the pair
    still stored. *)
Theorem refresh_loop_wakes_before_expiry c token c1 :
  ensure_token' c = (Ok token, c1) ->
  is_expiring_soon token (time c1) JWT_REFRESH_MARGIN_SECONDS = false ->
  Z.of_N (oversleep (time c1)) < 240 ->
  (turn c).1 = Ok tt
  /\ time c1 + 60 <= time (turn c).2
  /\ time (turn c).2 < expires_at token
  /\ TOKEN_STORE_FILE (turn c).2 = Stored token.
Proof.
  intros Hens Hfresh Hlag.
  pose proof (ensure_token_Ok_stored _ _ _ _ _ _ _ _ Hens) as Hst.
  rewrite refresh_loop_turn_eq, Hens. cbn [fst snd time TOKEN_STORE_FILE].
  unfold is_expiring_soon in Hfresh. apply Z.ltb_ge in Hfresh.
  unfold sleep_for, JWT_REFRESH_MARGIN_SECONDS in *.
  repeat split; (lia || assumption).
Qed.

(** X27.  A wake-up exactly at the margin does not refresh.  With a
    stored pair at least 360 seconds from expiry and sleeps that end
    on time, the first turn ends at [expires_at - 300], the second
    serves the same pair from the file and ends at [expires_at - 240],
    and in those two turns nothing is sent. *)
Theorem refresh_loop_refreshes_a_minute_late c token :
  TOKEN_STORE_FILE c = Stored token ->
  time c <= expires_at token - 360 ->
  oversleep (time c) = 0%N ->
  oversleep (expires_at token - 300) = 0%N ->
  loop 2 c
  = (Ok tt, {| TOKEN_STORE_FILE := Stored token;
               time := expires_at token - 240;
               trace := trace c |}).
Proof.
  intros Hfile Htime Hlag1 Hlag2.
  cbn [refresh_loop_cli]. unfold mbind, agent_bind.
  rewrite refresh_loop_turn_eq, (ensure_token_stored _ _ _ _ _ _ _ Hfile).
  rewrite is_expiring_soon_spec.
  unfold JWT_REFRESH_MARGIN_SECONDS.
  replace (time c <=? expires_at token - 300) with true
    by (symmetry; apply Z.leb_le; lia).
  cbn [negb]. rewrite Hlag1, Hfile.
  replace (time c + sleep_for token (time c) + Z.of_N 0)
    with (expires_at token - 300)
    by (unfold sleep_for, JWT_REFRESH_MARGIN_SECONDS; lia).
  rewrite refresh_loop_turn_eq.
  rewrite (ensure_token_stored _ _ _ _ _
             {| TOKEN_STORE_FILE := Stored token;
                time := expires_at token - 300; trace := trace c |} token)
    by reflexivity.
  rewrite is_expiring_soon_spec. cbn [time].
  unfold JWT_REFRESH_MARGIN_SECONDS. rewrite Z.leb_refl. cbn [negb].
  cbn [TOKEN_STORE_FILE time trace]. rewrite Hlag2.
  unfold mret, agent_ret. f_equal. f_equal.
  unfold sleep_for, JWT_REFRESH_MARGIN_SECONDS. lia.
Qed.

End RefreshLoopProperties.

(** ** The further properties on the deployment *)

Section CasesRun.

Import Scenario Cases.

Lemma configured : ~ secret_is_default cfg.
Proof.
  unfold secret_is_default. apply (bool_decide_eq_false_1 _).
  vm_compute. reflexivity.
Qed.

Lemma verify_unconfigured_500_witness :
  exists detail,
    verify default_config internet
      {| id_token := entra_token; device_id := None |} w0
    = (Raise (HTTPException 500 detail), w0).
Proof.
  apply (verify_unconfigured_500 default_config internet).
  - left. unfold default_config. simpl. apply list_elem_of_here.
  - reflexivity.
Defined.

Lemma verify_on_valid_cache_is_local_witness :
  (verify cfg internet {| id_token := entra_token; device_id := None |}
          (revisit 3599)).2 = revisit 3599.
Proof.
  apply (verify_on_valid_cache_is_local cfg internet).
  vm_compute. reflexivity.
Defined.

Lemma get_jwks_again_hits_witness :
  _get_jwks cfg internet w2 = (Ok key_set, w2).
Proof.
  apply (get_jwks_again_hits cfg internet w0 key_set w2).
  - reflexivity.
  - vm_compute. reflexivity.
Defined.

Lemma get_jwks_never_stale_witness :
  (exists ts, _jwks_cache w0 !! "jwks" = Some (key_set, ts)
              /\ monotonic w0 - ts < OPENID_CACHE_TTL_SECONDS cfg
              /\ w2 = w0)
  \/ (exists t uri, delivers (outcome (internet t uri)) key_set
                    /\ head (fetched w2) = Some uri
                    /\ _jwks_cache w2 !! "jwks" = Some (key_set, monotonic w2)).
Proof.
  apply (get_jwks_never_stale cfg internet w0 key_set w2).
  vm_compute. reflexivity.
Defined.

Lemma accepted_token_is_trusted_witness :
  exists jwks h kid k,
    _get_jwks cfg internet w0 = (Ok jwks, w2)
    /\ entra_token
       = PyJWT.Jwt h entra_claims (PyJWT.Signed "RS256" (PyJWT.RsaPrivate k))
    /\ PyJWT.h_alg h = Some "RS256"
    /\ PyJWT.h_kid h = Some (VStr kid)
    /\ {| jwk_kid := Some kid; jwk_key := Some k |} ∈ keys jwks
    /\ entra_claims !! "iss" = Some (VStr (issuer_expected cfg))
    /\ names_audience (get "aud" entra_claims) (ENTRA_CLIENT_ID cfg)
    /\ (forall e, entra_claims !! "exp" = Some (VInt e) -> utcnow w2 < e).
Proof.
  apply (accepted_token_is_trusted cfg internet entra_token w0 entra_claims w2).
  vm_compute. reflexivity.
Defined.

Lemma unknown_kid_rejected_witness :
  _validate_entra_token cfg internet unknown_kid_token w0
    = (Raise (HTTPException 401 "Signing key not found for token"), w2)
  /\ verify cfg internet
       {| id_token := unknown_kid_token; device_id := Some "dev-1" |} w0
     = (Raise (HTTPException 401 "Signing key not found for token"), w2).
Proof.
  apply (unknown_kid_rejected cfg internet unknown_kid_header entra_claims
           (PyJWT.Signed "RS256" (PyJWT.RsaPrivate 2%positive)) "k2" (Some "dev-1")
           w0 key_set w2).
  - vm_compute. reflexivity.
  - reflexivity.
  - discriminate.
  - repeat constructor. simpl. discriminate.
Defined.

Lemma missing_kid_rejected_witness :
  verify cfg internet
    {| id_token := PyJWT.Jwt no_kid_header entra_claims
                     (PyJWT.Signed "RS256" (PyJWT.RsaPrivate 1%positive));
       device_id := None |} w0
  = (Raise (HTTPException 401 "Missing kid in token header"), w2).
Proof.
  apply (missing_kid_rejected cfg internet no_kid_header entra_claims
           (PyJWT.Signed "RS256" (PyJWT.RsaPrivate 1%positive)) None w0 key_set w2).
  - vm_compute. reflexivity.
  - left. reflexivity.
Defined.





Lemma foreign_token_is_401_witness :
  refresh cfg {| req_refresh_token :=
                   PyJWT.Jwt foreign_header foreign_claims foreign_signature |}
          (cold 0 2000)
    = (Raise (HTTPException 401 "Invalid refresh token"), cold 0 2000)
  /\ get_current_user cfg
       (Some (Bearer (PyJWT.Jwt foreign_header foreign_claims foreign_signature)))
       None (utcnow (cold 0 2000))
     = Raise (HTTPException 401 "Invalid internal token").
Proof.
  apply (foreign_token_is_401 cfg foreign_header foreign_claims
           foreign_signature
           (Some (Bearer (PyJWT.Jwt foreign_header foreign_claims
                                    foreign_signature)))
           None (cold 0 2000)).
  - discriminate.
  - exact configured.
  - reflexivity.
Defined.

Lemma chat_text_of_text_blocks_witness :
  chat_text (VDict bedrock_answer) = Ok "Hello, world".
Proof.
  exact (chat_text_of_text_blocks bedrock_answer ["Hello"; ", world"] eq_refl).
Defined.

Lemma chat_answer_shape_witness :
  (chat_run (Some (Bearer (access_token pair)))).2
  = [("anthropic.claude", chat_body "bedrock-2023-05-31" conversation)]
  /\ exists text,
       choices chat_reply
       = [ {| index := 0;
              message := {| role := "assistant"; content := text |} |} ]
       /\ text <> "".
Proof.
  apply (chat_answer_shape cfg "anthropic.claude" "bedrock-2023-05-31"
           invoke_model conversation
           (Some (Bearer (access_token pair))) None 2000 chat_reply
           (chat_run (Some (Bearer (access_token pair)))).2).
  vm_compute. reflexivity.
Defined.

Lemma bedrock_only_behind_access_token_witness :
  ~ secret_is_default cfg
  /\ (exists h payload,
        _extract_token (Some (Bearer (access_token pair))) None
        = Ok (PyJWT.Jwt h payload
                (PyJWT.Signed "HS256"
                   (PyJWT.Hmac (PyJWT.RawSecret (INTERNAL_JWT_SECRET cfg)))))
        /\ get "type" payload = VStr "access")
  /\ bedrock_invoke_stream cfg (Some (Bearer (access_token pair))) None 2000
     = (Raise (HTTPException 501 "Streaming not implemented"), []).
Proof.
  apply (bedrock_only_behind_access_token cfg "anthropic.claude"
           "bedrock-2023-05-31" invoke_model invoke_model_raw
           conversation "{}" None).
  left. vm_compute. discriminate.
Defined.

Lemma ensure_token_returns_stored_pair_witness :
  TOKEN_STORE_FILE (agent (fresh_install 0)).2 = Stored first_pair.
Proof.
  apply (ensure_token_returns_stored_pair AUTH_SERVER_URL
           (0%N, Ok (Some "dev-1")) (0%N, Ok (Some entra_token))
           (0%N, Raise (RuntimeError "Device code flow init failed"))
           auth_server (fresh_install 0)).
  vm_compute. reflexivity.
Defined.


Lemma identity_flow_only_without_file_witness :
  identity_steps (agent (later 10501)).2 = identity_steps (later 10501).
Proof.
  apply (identity_flow_only_without_file AUTH_SERVER_URL
           (0%N, Ok (Some "dev-1")) (0%N, Ok (Some entra_token))
           (0%N, Raise (RuntimeError "Device code flow init failed"))
           auth_server (later 10501)).
  discriminate.
Defined.

Lemma azure_cli_token_preferred_witness :
  identity_steps (agent (fresh_install 0)).2
    = AzureCli :: identity_steps (fresh_install 0)
  /\ network_calls (agent (fresh_install 0)).2
     = Post (AUTH_SERVER_URL ++ "/auth/verify")
            (VerifyBody (Some entra_token) (Some "dev-1"))
       :: network_calls (fresh_install 0).
Proof.
  apply (azure_cli_token_preferred AUTH_SERVER_URL
           (0%N, Ok (Some "dev-1")) (0%N, Ok (Some entra_token))
           (0%N, Raise (RuntimeError "Device code flow init failed"))
           auth_server (fresh_install 0) (Some "dev-1") entra_token);
    reflexivity.
Defined.

Lemma identity_flow_failure_is_fatal_witness :
  (stranded (fresh_install 0)).1
    = Raise (RuntimeError "Device code flow init failed")
  /\ network_calls (stranded (fresh_install 0)).2
     = network_calls (fresh_install 0)
  /\ TOKEN_STORE_FILE (stranded (fresh_install 0)).2 = NoFile.
Proof.
  apply (identity_flow_failure_is_fatal AUTH_SERVER_URL
           (0%N, Ok None) (0%N, Ok None)
           (0%N, Raise (RuntimeError "Device code flow init failed"))
           auth_server (fresh_install 0) None None); reflexivity.
Defined.


Lemma refresh_loop_pace_witness :
  time (later 10000) + 60 * Z.of_nat 3 <= time (loop 3 (later 10000)).2
  /\ (length (network_calls (loop 3 (later 10000)).2)
      <= length (network_calls (later 10000)) + 3)%nat
  /\ (TOKEN_STORE_FILE (later 10000) <> NoFile ->
      identity_steps (loop 3 (later 10000)).2
      = identity_steps (later 10000)).
Proof.
  apply (refresh_loop_pace AUTH_SERVER_URL
           (0%N, Ok (Some "dev-1")) (0%N, Ok (Some entra_token))
           (0%N, Raise (RuntimeError "Device code flow init failed"))
           auth_server punctual 3 (later 10000)).
  vm_compute. reflexivity.
Defined.

Lemma refresh_loop_wakes_before_expiry_witness :
  (loop 1 (later 0)).1 = Ok tt
  /\ time (later 0) + 60 <= time (loop 1 (later 0)).2
  /\ time (loop 1 (later 0)).2 < expires_at first_pair
  /\ TOKEN_STORE_FILE (loop 1 (later 0)).2 = Stored first_pair.
Proof.
  apply (refresh_loop_wakes_before_expiry AUTH_SERVER_URL
           (0%N, Ok (Some "dev-1")) (0%N, Ok (Some entra_token))
           (0%N, Raise (RuntimeError "Device code flow init failed"))
           auth_server punctual (later 0) first_pair (later 0));
    reflexivity.
Defined.

Lemma refresh_loop_refreshes_a_minute_late_witness :
  loop 2 (later 0)
  = (Ok tt, {| TOKEN_STORE_FILE := Stored first_pair;
               time := expires_at first_pair - 240;
               trace := trace (later 0) |}).
Proof.
  apply (refresh_loop_refreshes_a_minute_late AUTH_SERVER_URL
           (0%N, Ok (Some "dev-1")) (0%N, Ok (Some entra_token))
           (0%N, Raise (RuntimeError "Device code flow init failed"))
           auth_server punctual (later 0) first_pair);
    (reflexivity || (vm_compute; discriminate)).
Defined.

(** In the scenario the third turn is the one that refreshes. *)
Example third_turn_refreshes :
  network_calls (loop 2 (later 0)).2 = []
  /\ network_calls (loop 3 (later 0)).2
     = [Post (AUTH_SERVER_URL ++ "/auth/refresh")
             (RefreshBody (td_refresh_token first_pair))].
Proof. split; vm_compute; reflexivity. Qed.

End CasesRun.
